(** * OTA notification and fleet monitoring scripts: a shallow embedding

    The development follows the three Python sources of the repository:

    - [src/mqtt_notify.py]: the notifier that publishes an unsigned
      announcement (module [mqtt_notify]);
    - [src/scripts/mqtt_notify.py]: the notifier that signs the announcement
      with HMAC-SHA256 when a key is configured (module [signed_notify]);
    - [src/scripts/monitor_fleet.py]: the fleet monitor whose [on_message]
      callback merges status and heartbeat events into the device table
      (module [monitor_fleet]).

    A Python [str] is represented by its UTF-8 encoding (a [string], that is a
    sequence of bytes), [bytes] by a list of byte values in [Z], an [int] by
    [Z], a [dict] with string keys by a [gmap string _] where only lookups
    matter and by an association list where the insertion order is part of
    what is built (the announcement payload). *)

From Stdlib Require Import ZArith Lia List Ascii String Bool.
From stdpp Require Import base option list gmap strings fin_maps countable pretty.

Local Open Scope Z_scope.

(** ** Python built-ins used by the scripts *)

Module Py.

(** [sub in s] on [str]: substring containment. *)
Fixpoint contains (sub s : string) : bool :=
  String.prefix sub s ||
  match s with
  | EmptyString => false
  | String _ s' => contains sub s'
  end.

(** Truth value of a [str]: the empty string is false. *)
Definition truthy (s : string) : bool :=
  match s with EmptyString => false | String _ _ => true end.

(** Truth value of an optional [str] ([None] is false). *)
Definition truthy_opt (o : option string) : bool :=
  match o with None => false | Some s => truthy s end.

(** [s.encode('utf-8')]: the byte values of the encoded string. *)
Definition encode (s : string) : list Z :=
  map (fun c => Z.of_N (N_of_ascii c)) (list_ascii_of_string s).

(** [s[:n]] on [str]: the first [n] characters. A character is one lead
    byte followed by its UTF-8 continuation bytes (10xxxxxx). *)
Definition is_continuation (c : ascii) : bool :=
  let n := Z.of_N (N_of_ascii c) in (128 <=? n) && (n <? 192).

Fixpoint str_take (n : nat) (s : string) : string :=
  match s with
  | EmptyString => EmptyString
  | String c s' =>
      if is_continuation c then String c (str_take n s')
      else match n with
           | O => EmptyString
           | S n' => String c (str_take n' s')
           end
  end.

(** [s.lower()] on the ASCII letters (the only ones whose lower case is an
    ASCII letter, up to the Kelvin sign, which no configuration value of
    the scripts is compared with). *)
Definition lower_char (c : ascii) : ascii :=
  let n := N_of_ascii c in
  if ((65 <=? n) && (n <=? 90))%N then ascii_of_N (n + 32) else c.

Fixpoint lower (s : string) : string :=
  match s with
  | EmptyString => EmptyString
  | String c s' => String (lower_char c) (lower s')
  end.

(** [str(b)] for a [bool], as an f-string prints it. *)
Definition str_bool (b : bool) : string := if b then "True" else "False".

(** The newline character of ["\n"]. *)
Definition nl : string := String (ascii_of_N 10) EmptyString.

(** One hexadecimal digit, lower case, as [bytes.hex] prints it. *)
Definition hex_digit (d : Z) : ascii :=
  match d with
  | 0 => "0" | 1 => "1" | 2 => "2" | 3 => "3" | 4 => "4"
  | 5 => "5" | 6 => "6" | 7 => "7" | 8 => "8" | 9 => "9"
  | 10 => "a" | 11 => "b" | 12 => "c" | 13 => "d" | 14 => "e"
  | _ => "f"
  end%char.

(** [bytes.hex()]: two digits per byte, high nibble first. *)
Fixpoint hex (bs : list Z) : string :=
  match bs with
  | [] => EmptyString
  | b :: bs' =>
      String (hex_digit ((b / 16) mod 16))
        (String (hex_digit (b mod 16)) (hex bs'))
  end.

(** The characters a lower-case hexadecimal string is made of. *)
Definition is_lower_hex (c : ascii) : bool :=
  let n := Z.of_N (N_of_ascii c) in
  ((48 <=? n) && (n <=? 57)) || ((97 <=? n) && (n <=? 102)).

End Py.

(** ** [hashlib.sha256] (FIPS 180-4) on byte lists *)

Module hashlib.

Definition mask32 : Z := 4294967295.
Definition add32 (x y : Z) : Z := (x + y) mod 4294967296.
Definition rotr (n x : Z) : Z :=
  Z.lor (Z.shiftr x n) (Z.land (Z.shiftl x (32 - n)) mask32).
Definition shr (n x : Z) : Z := Z.shiftr x n.
Definition Ch (x y z : Z) : Z :=
  Z.lxor (Z.land x y) (Z.land (Z.lxor x mask32) z).
Definition Maj (x y z : Z) : Z :=
  Z.lxor (Z.lxor (Z.land x y) (Z.land x z)) (Z.land y z).
Definition bsig0 (x : Z) : Z := Z.lxor (Z.lxor (rotr 2 x) (rotr 13 x)) (rotr 22 x).
Definition bsig1 (x : Z) : Z := Z.lxor (Z.lxor (rotr 6 x) (rotr 11 x)) (rotr 25 x).
Definition ssig0 (x : Z) : Z := Z.lxor (Z.lxor (rotr 7 x) (rotr 18 x)) (shr 3 x).
Definition ssig1 (x : Z) : Z := Z.lxor (Z.lxor (rotr 17 x) (rotr 19 x)) (shr 10 x).

(** The round constants: the first 32 bits of the fractional parts of the
    cube roots of the first sixty-four primes. *)
Definition K256 : list Z :=
  [
    1116352408; 1899447441; 3049323471; 3921009573;
    961987163; 1508970993; 2453635748; 2870763221;
    3624381080; 310598401; 607225278; 1426881987;
    1925078388; 2162078206; 2614888103; 3248222580;
    3835390401; 4022224774; 264347078; 604807628;
    770255983; 1249150122; 1555081692; 1996064986;
    2554220882; 2821834349; 2952996808; 3210313671;
    3336571891; 3584528711; 113926993; 338241895;
    666307205; 773529912; 1294757372; 1396182291;
    1695183700; 1986661051; 2177026350; 2456956037;
    2730485921; 2820302411; 3259730800; 3345764771;
    3516065817; 3600352804; 4094571909; 275423344;
    430227734; 506948616; 659060556; 883997877;
    958139571; 1322822218; 1537002063; 1747873779;
    1955562222; 2024104815; 2227730452; 2361852424;
    2428436474; 2756734187; 3204031479; 3329325298
  ].

(** The eight working words. *)
Record state := State {
  ha : Z; hb : Z; hc : Z; hd : Z; he : Z; hf : Z; hg : Z; hh : Z }.

(** The initial hash value: the first 32 bits of the fractional parts of the
    square roots of the first eight primes. *)
Definition H_init : state :=
  State 1779033703 3144134277 1013904242 2773480762
        1359893119 2600822924 528734635 1541459225.

(** Padding: a [1] bit, zero bytes up to 56 modulo 64, then the bit length
    as a 64-bit big-endian integer. *)
Definition be_bytes (n : nat) (x : Z) : list Z :=
  map (fun i => (Z.shiftr x (8 * Z.of_nat i)) mod 256) (rev (seq 0 n)).

Definition pad (msg : list Z) : list Z :=
  let len := Z.of_nat (length msg) in
  let zeros := Z.to_nat ((55 - len) mod 64) in
  msg ++ [128] ++ repeat 0 zeros ++ be_bytes 8 (8 * len).

(** Big-endian words of a byte list, four bytes each. *)
Fixpoint words (fuel : nat) (bs : list Z) : list Z :=
  match fuel, bs with
  | S fuel', b0 :: b1 :: b2 :: b3 :: rest =>
      (((b0 * 256 + b1) * 256 + b2) * 256 + b3) :: words fuel' rest
  | _, _ => []
  end.

(** Message schedule: the sixteen block words extended to sixty-four. *)
Fixpoint extend (n : nat) (w : list Z) : list Z :=
  match n with
  | O => w
  | S n' =>
      let t := length w in
      let at_back k := nth (t - k) w 0 in
      extend n'
        (w ++ [add32 (add32 (add32 (ssig1 (at_back 2%nat)) (at_back 7%nat))
                            (ssig0 (at_back 15%nat)))
                     (at_back 16%nat)])
  end.

Definition round (s : state) (kw : Z * Z) : state :=
  let t1 := add32 (add32 (add32 (add32 (hh s) (bsig1 (he s)))
                                (Ch (he s) (hf s) (hg s)))
                         (fst kw))
                  (snd kw) in
  let t2 := add32 (bsig0 (ha s)) (Maj (ha s) (hb s) (hc s)) in
  State (add32 t1 t2) (ha s) (hb s) (hc s) (add32 (hd s) t1) (he s) (hf s) (hg s).

Definition compress (s : state) (block : list Z) : state :=
  let w := extend 48 (words 16 block) in
  let r := fold_left round (combine K256 w) s in
  State (add32 (ha s) (ha r)) (add32 (hb s) (hb r))
        (add32 (hc s) (hc r)) (add32 (hd s) (hd r))
        (add32 (he s) (he r)) (add32 (hf s) (hf r))
        (add32 (hg s) (hg r)) (add32 (hh s) (hh r)).

Fixpoint blocks (fuel : nat) (bs : list Z) : list (list Z) :=
  match fuel with
  | O => []
  | S fuel' =>
      match bs with
      | [] => []
      | _ => firstn 64 bs :: blocks fuel' (skipn 64 bs)
      end
  end.

(** [hashlib.sha256(msg).digest()]: thirty-two bytes. *)
Definition digest (msg : list Z) : list Z :=
  let p := pad msg in
  let s := fold_left compress (blocks (length p) p) H_init in
  flat_map (be_bytes 4)
    [ha s; hb s; hc s; hd s; he s; hf s; hg s; hh s].

Definition block_size : nat := 64.

(** The largest [r] below [2^bits] above [acc] with [pow r <= x], found bit
    by bit: the integer root used to check the constants. *)
Fixpoint iroot (pow : Z -> Z) (bits : nat) (x acc : Z) : Z :=
  match bits with
  | O => acc
  | S b =>
      let candidate := acc + 2 ^ Z.of_nat b in
      iroot pow b x (if pow candidate <=? x then candidate else acc)
  end.

Definition first_primes : list Z :=
  [2; 3; 5; 7; 11; 13; 17; 19; 23; 29; 31; 37; 41; 43; 47; 53; 59; 61; 67;
   71; 73; 79; 83; 89; 97; 101; 103; 107; 109; 113; 127; 131; 137; 139; 149;
   151; 157; 163; 167; 173; 179; 181; 191; 193; 197; 199; 211; 223; 227;
   229; 233; 239; 241; 251; 257; 263; 269; 271; 277; 281; 283; 293; 307;
   311].

End hashlib.

(** ** [hmac.new(key, msg, hashlib.sha256)] (RFC 2104) *)

Module hmac.

(** The key is hashed when longer than a block, then padded with zeros. *)
Definition block_key (key : list Z) : list Z :=
  let k := if (hashlib.block_size <? length key)%nat
           then hashlib.digest key else key in
  k ++ repeat 0 (hashlib.block_size - length k).

Definition digest (key msg : list Z) : list Z :=
  let k := block_key key in
  let inner := hashlib.digest (map (Z.lxor 54) k ++ msg) in
  hashlib.digest (map (Z.lxor 92) k ++ inner).

(** [hmac.new(key, msg, hashlib.sha256).hexdigest()]. *)
Definition hexdigest (key msg : list Z) : string :=
  Py.hex (digest key msg).

End hmac.

(** ** Values exchanged as JSON *)

(** A Python [float]: a dyadic rational [m * 2^e], an infinity or the
    not-a-number object of the [json] module. *)
Inductive pyfloat :=
| FFinite (m e : Z)
| FInf (negative : bool)
| FNaN.

Local Set Warnings "-register-all".

(** What [json.loads] returns, and what [json.dumps] accepts. *)
Inductive json :=
| JNull
| JBool (b : bool)
| JInt (z : Z)
| JFloat (f : pyfloat)
| JStr (s : string)
| JList (l : list json)
| JDict (d : gmap string json).

(** ** The command line and the outside world of the notifiers *)

Module cli.

(** The namespace [argparse] returns; both notifiers declare the same
    arguments. *)
Record Args := {
  version : string;
  sha256 : string;
  repo : string;
  target : string;          (* one of fleet, canary, staging, production *)
  device : option string;   (* None unless --device is given *)
  force : bool;
  dry_run : bool }.

Definition target_choices : list string :=
  ["fleet"; "canary"; "staging"; "production"]%string.

(** What the process observes from outside: environment variables, the
    clock, and the answers of the MQTT client library. *)
Record World := {
  environ : gmap string string;
  utcnow_isoformat : string;        (* datetime.now(timezone.utc).isoformat() *)
  time_time : Z;                    (* int(time.time()) *)
  connect_raises : option string;   (* str(e) when client.connect raises *)
  connected_after : nat -> bool;    (* the flag [connected] after so many sleeps *)
  publish_raises : option string;   (* str(e) when publish or its wait raises *)
  is_published : bool }.

(** What a run does, in order. *)
Inductive event :=
| Print (line : string)
| Sleep (seconds : Z)
| ClientNew (client_id : string)
| UsernamePwSet (username password : string)
| TlsSet
| ClientConnect (broker : string) (port keepalive : Z)
| LoopStart
| Publish (topic payload_json : string) (qos : Z) (retain : bool)
| WaitForPublish (timeout : Z)
| LoopStop
| Disconnect.

(** How a run can be cut short: [sys.exit(code)], or an exception that is
    an instance of [Exception], with its [str(e)]. *)
Inductive abort :=
| SysExit (code : Z)
| Raised (message : string).

(** A computation that prints and calls the client, and either returns or
    aborts. *)
Definition proc (A : Type) : Type := (list event * (abort + A))%type.

Definition ret {A} (a : A) : proc A := ([], inr a).

Definition bind {A B} (m : proc A) (k : A -> proc B) : proc B :=
  match m with
  | (t, inl ab) => (t, inl ab)
  | (t, inr a) => let '(t', r) := k a in (t ++ t', r)
  end.

Definition emit (e : event) : proc unit := ([e], inr tt).
Definition print (line : string) : proc unit := emit (Print line).
Definition sys_exit {A} (code : Z) : proc A := ([], inl (SysExit code)).
Definition raise {A} (message : string) : proc A := ([], inl (Raised message)).

(** [try: body except Exception as e: handler(str(e))]; [SystemExit] is not
    an [Exception] and passes through. *)
Definition try_except {A} (body : proc A) (handler : string -> proc A) : proc A :=
  match body with
  | (t, inl (Raised e)) => let '(t', r) := handler e in (t ++ t', r)
  | other => other
  end.

(** [try: body finally: cleanup]. *)
Definition finally {A} (body : proc A) (cleanup : proc unit) : proc A :=
  let '(t, r) := body in
  let '(t', r') := cleanup in
  (t ++ t', match r' with inl ab => inl ab | inr _ => r end).

Definition trace {A} (m : proc A) : list event := fst m.
Definition result {A} (m : proc A) : abort + A := snd m.

End cli.

Import cli.

Notation "x <- m ;;; k" := (cli.bind m (fun x => k))
  (at level 100, m at next level, right associativity, only parsing).
Notation "m ;;; k" := (cli.bind m (fun _ => k))
  (at level 100, right associativity, only parsing).

(** ** The notifiers *)

Module mqtt_common.

(** [os.environ.get(name, default)]. *)
Definition environ_get (w : World) (name : string) (default : option string)
  : option string :=
  match environ w !! name with
  | Some v => Some v
  | None => default
  end.

(** The connection settings a notifier reads before it connects. *)
Record Connection := {
  broker : string;
  port : Z;
  username : string;
  password : string;
  use_tls : bool }.

End mqtt_common.

Import mqtt_common.

(** *** [src/mqtt_notify.py] *)

Module mqtt_notify.

Section WithLibrary.

(** [json.dumps(payload, indent=2)] on the payload dictionary, whose
    items are kept in insertion order. *)
Variable json_dumps : list (string * json) -> string.

(** [int(s)]: [None] stands for [ValueError]. *)
Variable py_int : string -> option Z.

(** [get_env]: the variable, the default, or an error and
    [sys.exit(1)]. *)
Definition get_env (w : World) (name : string) (default : option string)
  : proc string :=
  match environ_get w name default with
  | None =>
      print ("ERROR: Missing environment variable: " +:+ name) ;;;
      sys_exit 1
  | Some val => ret val
  end.

Definition build_firmware_url (repo version : string) : string :=
  "https://github.com/" +:+ repo +:+ "/releases/download/v" +:+ version
    +:+ "/firmware.bin".

(** The payload dictionary [main] starts from. *)
Definition base_payload (args : Args) (w : World) : list (string * json) :=
  [ ("version", JStr (version args));
    ("url", JStr (build_firmware_url (repo args) (version args)));
    ("sha256", JStr (sha256 args));
    ("force", JBool (force args));
    ("timestamp", JStr (utcnow_isoformat w));
    ("repo", JStr (repo args)) ]%string.

(** The topic chosen from [--device] and [--target], with the line
    printed for it. [if args.device] holds for a device that is neither
    [None] nor empty. *)
Definition choose_topic (args : Args) : proc string :=
  if Py.truthy_opt (device args) then
    let d := default EmptyString (device args) in
    print ("Target: single device → " +:+ d) ;;;
    ret ("ota/device/" +:+ d)
  else if String.eqb (target args) "fleet" then
    print "Target: entire fleet" ;;;
    ret "ota/fleet/all"%string
  else
    print ("Target: group → " +:+ target args) ;;;
    ret ("ota/group/" +:+ target args).

(** The topic [main] publishes to. *)
Definition topic (args : Args) : string :=
  match result (choose_topic args) with
  | inr t => t
  | inl _ => EmptyString
  end.

(** The connection settings read from the environment. *)
Definition read_connection (w : World) : proc Connection :=
  broker <- get_env w "MQTT_BROKER" None ;;;
  port_s <- get_env w "MQTT_PORT" (Some "8883"%string) ;;;
  port <- match py_int port_s with
          | Some p => ret p
          | None =>
              raise ("invalid literal for int() with base 10: '" +:+ port_s
                     +:+ "'")
          end ;;;
  username <- get_env w "MQTT_USERNAME" None ;;;
  password <- get_env w "MQTT_PASSWORD" None ;;;
  tls <- get_env w "MQTT_USE_TLS" (Some "true"%string) ;;;
  ret {| broker := broker; port := port; username := username;
         password := password;
         use_tls := String.eqb (Py.lower tls) "true" |}.

Definition setup_client (w : World) (c : Connection) : proc unit :=
  print (Py.nl +:+ "Connecting to MQTT broker: " +:+ broker c +:+ ":"
         +:+ pretty (port c) +:+ " (TLS: " +:+ Py.str_bool (use_tls c)
         +:+ ")") ;;;
  emit (ClientNew ("github-actions-ota-" +:+ pretty (time_time w))) ;;;
  emit (UsernamePwSet (username c) (password c)) ;;;
  (if use_tls c then emit TlsSet else ret tt).

(** The loop polling the flag the connect callback sets: at most [n] more
    rounds, [i] sleeps done so far; returns the sleeps done. *)
Fixpoint wait_for_connection (w : World) (n i : nat) : proc nat :=
  match n with
  | O => ret i
  | S n' =>
      if connected_after w i then ret i
      else
        emit (Sleep 1) ;;;
        print ("  Waiting for connection... ("
               +:+ pretty (Z.of_nat (S i)) +:+ "/15s)") ;;;
        wait_for_connection w n' (S i)
  end.

Definition connect_and_wait (w : World) (c : Connection) : proc unit :=
  emit (ClientConnect (broker c) (port c) 30) ;;;
  match connect_raises w with
  | Some e => raise e
  | None =>
      emit LoopStart ;;;
      slept <- wait_for_connection w 15 0 ;;;
      if connected_after w slept then ret tt
      else print "ERROR: Could not connect to MQTT broker" ;;; sys_exit 1
  end.

(** [client.publish(topic, payload_json, qos=1, retain=True)] and the
    wait for the acknowledgement; returns [result.is_published()]. *)
Definition publish_and_wait (w : World) (topic payload_json : string)
  : proc bool :=
  emit (Publish topic payload_json 1 true) ;;;
  emit (WaitForPublish 10) ;;;
  match publish_raises w with
  | Some e => raise e
  | None => ret (is_published w)
  end.

(** The [except Exception] handler and the [finally] clause around the
    send. *)
Definition guarded (body : proc unit) : proc unit :=
  finally
    (try_except body (fun e => print ("ERROR: " +:+ e) ;;; sys_exit 1))
    (emit LoopStop ;;; emit Disconnect).

(** The payload [main] serialises. *)
Definition payload (args : Args) (w : World) : list (string * json) :=
  base_payload args w.

Definition main (args : Args) (w : World) : proc unit :=
  let firmware_url := build_firmware_url (repo args) (version args) in
  let payload := payload args w in
  topic <- choose_topic args ;;;
  let payload_json := json_dumps payload in
  print (Py.nl +:+ "Topic:   " +:+ topic) ;;;
  print ("Payload: " +:+ payload_json) ;;;
  print ("URL:     " +:+ firmware_url) ;;;
  if dry_run args then
    print (Py.nl +:+ "[DRY RUN] Not sending — exiting.")
  else
    c <- read_connection w ;;;
    setup_client w c ;;;
    guarded (
      connect_and_wait w c ;;;
      published <- publish_and_wait w topic payload_json ;;;
      if published then
        print (Py.nl +:+ "✓ OTA notification published successfully!") ;;;
        print ("  Topic:   " +:+ topic) ;;;
        print ("  Version: " +:+ version args) ;;;
        print ("  SHA256:  " +:+ Py.str_take 16 (sha256 args) +:+ "...")
      else
        print "ERROR: Failed to publish MQTT message" ;;;
        sys_exit 1).

End WithLibrary.

End mqtt_notify.

(** *** [src/scripts/mqtt_notify.py] *)

Module signed_notify.

Section WithLibrary.

(** [json.dumps(payload, indent=2)] on the payload dictionary, whose
    items are kept in insertion order. *)
Variable json_dumps : list (string * json) -> string.

(** [int(s)]: [None] stands for [ValueError]. *)
Variable py_int : string -> option Z.

(** [get_env]: the variable, the default, or an error and
    [sys.exit(1)]. *)
Definition get_env (w : World) (name : string) (default : option string)
  : proc string :=
  match environ_get w name default with
  | None =>
      print ("ERROR: Missing environment variable: " +:+ name) ;;;
      sys_exit 1
  | Some val => ret val
  end.

Definition build_firmware_url (repo version : string) : string :=
  "https://github.com/" +:+ repo +:+ "/releases/download/v" +:+ version
    +:+ "/firmware.bin".

(** HMAC-SHA256 over [version|sha256|url], as a hexadecimal digest. *)
Definition compute_hmac_signature (version sha256 url signing_key : string)
  : string :=
  let sign_data := version +:+ "|" +:+ sha256 +:+ "|" +:+ url in
  let signature :=
    hmac.hexdigest (Py.encode signing_key) (Py.encode sign_data) in
  signature.

(** The payload dictionary [main] starts from. *)
Definition base_payload (args : Args) (w : World) : list (string * json) :=
  [ ("version", JStr (version args));
    ("url", JStr (build_firmware_url (repo args) (version args)));
    ("sha256", JStr (sha256 args));
    ("force", JBool (force args));
    ("timestamp", JStr (utcnow_isoformat w));
    ("repo", JStr (repo args)) ]%string.

(** [os.environ.get("OTA_SIGNING_KEY", "")]. *)
Definition signing_key (w : World) : string :=
  default EmptyString (environ_get w "OTA_SIGNING_KEY" (Some EmptyString)).

(** The signing step: the payload with the signature added when a key is
    set, and the lines printed either way. *)
Definition sign_payload (args : Args) (w : World)
  (payload : list (string * json)) : proc (list (string * json)) :=
  let firmware_url := build_firmware_url (repo args) (version args) in
  if Py.truthy (signing_key w) then
    let signature :=
      compute_hmac_signature (version args) (sha256 args) firmware_url
        (signing_key w) in
    print ("Signature computed: " +:+ Py.str_take 16 signature +:+ "...") ;;;
    print ("  Sign data: " +:+ version args +:+ "|" +:+ sha256 args
           +:+ "|" +:+ firmware_url) ;;;
    ret (payload ++ [("signature"%string, JStr signature)])
  else
    print "WARNING: OTA_SIGNING_KEY not set - payload will NOT be signed" ;;;
    print "  Devices with signing enabled will REJECT this update!" ;;;
    ret payload.

(** The topic chosen from [--device] and [--target], with the line
    printed for it. [if args.device] holds for a device that is neither
    [None] nor empty. *)
Definition choose_topic (args : Args) : proc string :=
  if Py.truthy_opt (device args) then
    let d := default EmptyString (device args) in
    print ("Target: single device -> " +:+ d) ;;;
    ret ("ota/device/" +:+ d)
  else if String.eqb (target args) "fleet" then
    print "Target: entire fleet" ;;;
    ret "ota/fleet/all"%string
  else
    print ("Target: group -> " +:+ target args) ;;;
    ret ("ota/group/" +:+ target args).

(** The topic [main] publishes to. *)
Definition topic (args : Args) : string :=
  match result (choose_topic args) with
  | inr t => t
  | inl _ => EmptyString
  end.

(** The connection settings read from the environment. *)
Definition read_connection (w : World) : proc Connection :=
  broker <- get_env w "MQTT_BROKER" None ;;;
  port_s <- get_env w "MQTT_PORT" (Some "8883"%string) ;;;
  port <- match py_int port_s with
          | Some p => ret p
          | None =>
              raise ("invalid literal for int() with base 10: '" +:+ port_s
                     +:+ "'")
          end ;;;
  username <- get_env w "MQTT_USERNAME" None ;;;
  password <- get_env w "MQTT_PASSWORD" None ;;;
  tls <- get_env w "MQTT_USE_TLS" (Some "true"%string) ;;;
  ret {| broker := broker; port := port; username := username;
         password := password;
         use_tls := String.eqb (Py.lower tls) "true" |}.

Definition setup_client (w : World) (c : Connection) : proc unit :=
  print (Py.nl +:+ "Connecting to MQTT broker: " +:+ broker c +:+ ":"
         +:+ pretty (port c) +:+ " (TLS: " +:+ Py.str_bool (use_tls c)
         +:+ ")") ;;;
  emit (ClientNew ("github-actions-ota-" +:+ pretty (time_time w))) ;;;
  emit (UsernamePwSet (username c) (password c)) ;;;
  (if use_tls c then emit TlsSet else ret tt).

(** The loop polling the flag the connect callback sets: at most [n] more
    rounds, [i] sleeps done so far; returns the sleeps done. *)
Fixpoint wait_for_connection (w : World) (n i : nat) : proc nat :=
  match n with
  | O => ret i
  | S n' =>
      if connected_after w i then ret i
      else
        emit (Sleep 1) ;;;
        print ("  Waiting for connection... ("
               +:+ pretty (Z.of_nat (S i)) +:+ "/15s)") ;;;
        wait_for_connection w n' (S i)
  end.

Definition connect_and_wait (w : World) (c : Connection) : proc unit :=
  emit (ClientConnect (broker c) (port c) 30) ;;;
  match connect_raises w with
  | Some e => raise e
  | None =>
      emit LoopStart ;;;
      slept <- wait_for_connection w 15 0 ;;;
      if connected_after w slept then ret tt
      else print "ERROR: Could not connect to MQTT broker" ;;; sys_exit 1
  end.

(** [client.publish(topic, payload_json, qos=1, retain=True)] and the
    wait for the acknowledgement; returns [result.is_published()]. *)
Definition publish_and_wait (w : World) (topic payload_json : string)
  : proc bool :=
  emit (Publish topic payload_json 1 true) ;;;
  emit (WaitForPublish 10) ;;;
  match publish_raises w with
  | Some e => raise e
  | None => ret (is_published w)
  end.

(** The [except Exception] handler and the [finally] clause around the
    send. *)
Definition guarded (body : proc unit) : proc unit :=
  finally
    (try_except body (fun e => print ("ERROR: " +:+ e) ;;; sys_exit 1))
    (emit LoopStop ;;; emit Disconnect).

(** The payload [main] serialises. *)
Definition payload (args : Args) (w : World) : list (string * json) :=
  match result (sign_payload args w (base_payload args w)) with
  | inr p => p
  | inl _ => base_payload args w
  end.

Definition main (args : Args) (w : World) : proc unit :=
  let firmware_url := build_firmware_url (repo args) (version args) in
  payload <- sign_payload args w (base_payload args w) ;;;
  topic <- choose_topic args ;;;
  let payload_json := json_dumps payload in
  print (Py.nl +:+ "Topic:   " +:+ topic) ;;;
  print ("Payload: " +:+ payload_json) ;;;
  print ("URL:     " +:+ firmware_url) ;;;
  if dry_run args then
    print (Py.nl +:+ "[DRY RUN] Not sending - exiting.")
  else
    c <- read_connection w ;;;
    setup_client w c ;;;
    guarded (
      connect_and_wait w c ;;;
      published <- publish_and_wait w topic payload_json ;;;
      if published then
        print (Py.nl +:+ "OTA notification published successfully!") ;;;
        print ("  Topic:   " +:+ topic) ;;;
        print ("  Version: " +:+ version args) ;;;
        print ("  SHA256:  " +:+ Py.str_take 16 (sha256 args) +:+ "...") ;;;
        (if Py.truthy (signing_key w) then
           print "  Signed:  YES (HMAC-SHA256)"
         else
           print "  Signed:  NO (no signing key)")
      else
        print "ERROR: Failed to publish MQTT message" ;;;
        sys_exit 1).

End WithLibrary.

End signed_notify.

(** ** [src/scripts/monitor_fleet.py] *)

Module monitor_fleet.

(** The exception classes that can occur while a message is handled.
    [KeyboardInterrupt] is the one that is not an [Exception]. *)
Inductive exc_class :=
| JSONDecodeError
| UnicodeDecodeError
| RecursionError
| AttributeError
| TypeError
| ValueError
| KeyboardInterrupt.

Record exn := Exn { exn_class : exc_class; exn_message : string }.

Definition is_Exception (c : exc_class) : bool :=
  match c with KeyboardInterrupt => false | _ => true end.

Definition is_JSONDecodeError (c : exc_class) : bool :=
  match c with JSONDecodeError => true | _ => false end.

(** An MQTT message as the callback receives it. *)
Record MQTTMessage := {
  topic : string;
  payload : list Z }.

(** Dictionary keys. Python compares keys with [==], under which [True],
    [1] and [1.0] are one key: a number is kept as an odd mantissa and an
    exponent, so that equal numbers are equal keys. *)
Inductive pykey :=
| KNone
| KNum (m e : Z)
| KInf (negative : bool)
| KNaN
| KStr (s : string).

Fixpoint strip_twos (p : positive) : positive * Z :=
  match p with
  | xO p' => let '(m, e) := strip_twos p' in (m, e + 1)
  | _ => (p, 0)
  end.

Definition dyadic (m e : Z) : pykey :=
  match m with
  | Z0 => KNum 0 0
  | Zpos p => let '(q, k) := strip_twos p in KNum (Zpos q) (e + k)
  | Zneg p => let '(q, k) := strip_twos p in KNum (Zneg q) (e + k)
  end.

(** The key a value is stored under, [None] when it is unhashable. *)
Definition hash_key (v : json) : option pykey :=
  match v with
  | JNull => Some KNone
  | JBool b => Some (dyadic (if b then 1 else 0) 0)
  | JInt z => Some (dyadic z 0)
  | JFloat (FFinite m e) => Some (dyadic m e)
  | JFloat (FInf s) => Some (KInf s)
  | JFloat FNaN => Some KNaN
  | JStr s => Some (KStr s)
  | JList _ | JDict _ => None
  end.

Definition type_name (v : json) : string :=
  match v with
  | JNull => "NoneType"
  | JBool _ => "bool"
  | JInt _ => "int"
  | JFloat _ => "float"
  | JStr _ => "str"
  | JList _ => "list"
  | JDict _ => "dict"
  end.

#[global] Instance pykey_eq_dec : EqDecision pykey.
Proof. solve_decision. Defined.

Definition pykey_to_sum (k : pykey) : unit + (Z * Z) + bool + unit + string :=
  match k with
  | KNone => inl (inl (inl (inl tt)))
  | KNum m e => inl (inl (inl (inr (m, e))))
  | KInf s => inl (inl (inr s))
  | KNaN => inl (inr tt)
  | KStr s => inr s
  end.

Definition pykey_of_sum (x : unit + (Z * Z) + bool + unit + string) : pykey :=
  match x with
  | inl (inl (inl (inl _))) => KNone
  | inl (inl (inl (inr (m, e)))) => KNum m e
  | inl (inl (inr s)) => KInf s
  | inl (inr _) => KNaN
  | inr s => KStr s
  end.

#[global] Instance pykey_countable : Countable pykey.
Proof.
  refine (inj_countable' pykey_to_sum pykey_of_sum _).
  intros []; reflexivity.
Defined.

(** A device's entry: a [dict] from field names to values. *)
Abbreviation record := (gmap string json).

(** The module-level [devices = OrderedDict()]: the keys in the order of
    their first insertion, and the entry of each. *)
Record OrderedDict := {
  od_keys : list json;
  od_items : gmap pykey record }.

Definition od_empty : OrderedDict := {| od_keys := []; od_items := ∅ |}.

(** [devices[key_obj] = {}] for a key that is not in the table. *)
Definition od_add (key_obj : json) (k : pykey) (devices : OrderedDict)
  : OrderedDict :=
  {| od_keys := od_keys devices ++ [key_obj];
     od_items := <[k := ∅]> (od_items devices) |}.

(** [devices[k]], for a key that is in the table. *)
Definition od_get (k : pykey) (devices : OrderedDict) : record :=
  default ∅ (od_items devices !! k).

(** In-place change of the entry [devices[k]]. *)
Definition od_modify (k : pykey) (f : record -> record) (devices : OrderedDict)
  : OrderedDict :=
  {| od_keys := od_keys devices;
     od_items := <[k := f (od_get k devices)]> (od_items devices) |}.

(** [entry.update(payload)]: the payload's items win. *)
Definition dict_update (payload entry : record) : record := payload ∪ entry.

(** [v in names] for a value looked up with [dict.get] and a list of
    [str]: only a string equals a string. *)
Definition in_names (v : option json) (names : list string) : bool :=
  match v with
  | Some (JStr s) => existsb (String.eqb s) names
  | _ => false
  end.

Definition in_progress : list string :=
  ["downloading"; "self_test_running"; "rebooting"]%string.

(** What handling a message leaves behind: the table, the lines printed,
    and the exception that escapes the callback, if any. *)
Record Outcome := {
  devices_after : OrderedDict;
  printed : list string;
  escaped : option exn }.

(** State and exceptions: a step reads and writes the table and either
    yields a value or raises; what was written before a raise stays. *)
Definition step (A : Type) : Type :=
  OrderedDict -> OrderedDict * list string * (exn + A).

Definition sret {A} (a : A) : step A := fun d => (d, [], inr a).

Definition sbind {A B} (m : step A) (k : A -> step B) : step B :=
  fun d =>
    match m d with
    | (d', out, inl e) => (d', out, inl e)
    | (d', out, inr a) =>
        let '(d'', out', r) := k a d' in (d'', out ++ out', r)
    end.

Definition lift {A} (r : exn + A) : step A := fun d => (d, [], r).
Definition modify (f : OrderedDict -> OrderedDict) : step unit :=
  fun d => (f d, [], inr tt).
Definition read {A} (f : OrderedDict -> A) : step A :=
  fun d => (d, [], inr (f d)).

Section Callback.

(** [json.loads(bytes.decode())]: the decoded value, or the
    [UnicodeDecodeError], [JSONDecodeError] or [RecursionError] raised. *)
Variable loads : list Z -> exn + json.

(** [print_fleet_status()]: the lines it prints from the table and the
    exception it raises, if it does. It only reads the table. *)
Variable print_fleet_status : OrderedDict -> list string * option exn.

Definition render : step unit :=
  fun d =>
    let '(lines, e) := print_fleet_status d in
    (d, lines, match e with Some e => inl e | None => inr tt end).

(** [payload.get]: only a [dict] has the method. *)
Definition get_method (payload : json) : exn + record :=
  match payload with
  | JDict d => inr d
  | other =>
      inl (Exn AttributeError
             ("'" +:+ type_name other +:+ "' object has no attribute 'get'"))
  end.

(** Hashing of the key in [device_id not in devices]. *)
Definition hashed (device_id : json) : exn + pykey :=
  match hash_key device_id with
  | Some k => inr k
  | None =>
      inl (Exn TypeError
             ("unhashable type: '" +:+ type_name device_id +:+ "'"))
  end.

Notation "x <- m ;; k" := (sbind m (fun x => k))
  (at level 100, m at next level, right associativity, only parsing).
Notation "m ;; k" := (sbind m (fun _ => k))
  (at level 100, right associativity, only parsing).

(** The body of the [try] statement of [on_message]. *)
Definition on_message_body (msg : MQTTMessage) (now : string) : step unit :=
  parsed <- lift (loads (payload msg)) ;;
  payload <- lift (get_method parsed) ;;
  let device_id := default (JStr "unknown") (payload !! "device_id") in
  k <- lift (hashed device_id) ;;
  known <- read (fun d => bool_decide (is_Some (od_items d !! k))) ;;
  (if known then sret tt else modify (od_add device_id k)) ;;
  modify (od_modify k (dict_update payload)) ;;
  modify (od_modify k (insert "last_seen" (JStr now))) ;;
  (if Py.contains "status" (topic msg) then sret tt
   else if Py.contains "heartbeat" (topic msg) then
     entry <- read (od_get k) ;;
     if negb (in_names (entry !! "status") in_progress) then
       let state := default (JStr "stable") (payload !! "state") in
       modify (od_modify k (insert "status" state))
     else sret tt
   else sret tt) ;;
  render.

(** [on_message]: [JSONDecodeError] is passed over in silence, any other
    [Exception] is printed, anything else escapes. *)
Definition on_message (devices : OrderedDict) (msg : MQTTMessage)
  (now : string) : Outcome :=
  match on_message_body msg now devices with
  | (d, out, inr _) =>
      {| devices_after := d; printed := out; escaped := None |}
  | (d, out, inl e) =>
      if is_JSONDecodeError (exn_class e) then
        {| devices_after := d; printed := out; escaped := None |}
      else if is_Exception (exn_class e) then
        {| devices_after := d;
           printed := out ++ ["Error processing message: " +:+ exn_message e];
           escaped := None |}
      else
        {| devices_after := d; printed := out; escaped := Some e |}
  end.

(** The network loop of [client.loop_forever()]: the messages are handed
    to [on_message] in order, each at its arrival time; an exception
    that escapes the callback ends the loop. *)
Fixpoint loop_forever (devices : OrderedDict)
  (inbox : list (MQTTMessage * string)) : Outcome :=
  match inbox with
  | [] => {| devices_after := devices; printed := []; escaped := None |}
  | (msg, now) :: rest =>
      let o := on_message devices msg now in
      match escaped o with
      | Some e => o
      | None =>
          let o' := loop_forever (devices_after o) rest in
          {| devices_after := devices_after o';
             printed := printed o ++ printed o';
             escaped := escaped o' |}
      end
  end.

End Callback.

End monitor_fleet.


Import monitor_fleet.

(** ** What the properties below observe *)

(** [d.get(k)] on a dictionary kept as its items in insertion order (the
    keys of a dictionary are distinct). *)
Fixpoint dict_get (k : string) (d : list (string * json)) : option json :=
  match d with
  | [] => None
  | (k', v) :: d' => if String.eqb k k' then Some v else dict_get k d'
  end.

(** The keys of such a dictionary, in order. *)
Definition dict_keys (d : list (string * json)) : list string := map fst d.

(** The messages a run hands to [client.publish]: topic and payload text. *)
Fixpoint publishes (t : list event) : list (string * string) :=
  match t with
  | [] => []
  | Publish topic payload_json _ _ :: t' => (topic, payload_json) :: publishes t'
  | _ :: t' => publishes t'
  end.

(** [devices[k].get(name)], and nothing when the table has no entry [k]. *)
Definition field (devices : OrderedDict) (k : pykey) (name : string)
  : option json :=
  od_items devices !! k ≫= (fun entry => entry !! name).

(** The key an event is filed under: its [device_id], or ["unknown"]. *)
Definition device_id_of (p : gmap string json) : json :=
  default (JStr "unknown") (p !! "device_id").

(** The entry [on_message] leaves for an event with payload [p] that arrived
    at [now] on [topic], when the entry was [old] before. *)
Definition merged_entry (p old : gmap string json) (now : string)
  : gmap string json :=
  <["last_seen" := JStr now]> (dict_update p old).

Definition entry_after (topic : string) (p old : gmap string json)
  (now : string) : gmap string json :=
  let merged := merged_entry p old now in
  if Py.contains "status" topic then merged
  else if Py.contains "heartbeat" topic then
    if negb (in_names (merged !! "status") in_progress) then
      <["status" := default (JStr "stable") (p !! "state")]> merged
    else merged
  else merged.

(** A decoder that knows the listed texts and rejects every other input: it
    stands for [json.loads] in the worked examples. *)
Definition loads_of (known : list (string * json)) (bytes : list Z)
  : exn + json :=
  match
    List.find (fun entry => bool_decide (Py.encode (fst entry) = bytes)) known
  with
  | Some entry => inr (snd entry)
  | None => inl (Exn JSONDecodeError "Expecting value")
  end.

(** A renderer that prints nothing and never fails, for the examples. *)
Definition quiet_status (devices : OrderedDict) : list string * option exn :=
  ([], None).

(** The double quote character, for JSON texts. *)
Definition dq : string := String (ascii_of_N 34) EmptyString.

(** ** Worked inputs and summaries used by the properties *)

(** What a run publishes once the topic and the payload text are fixed: one
    message when it is not a dry run, the settings are complete and the
    connection is made, nothing otherwise. *)
Definition sent (py_int : string -> option Z) (args : Args) (w : World)
  (topic payload_json : string) : list (string * string) :=
  if dry_run args then []
  else
    match result (mqtt_notify.read_connection py_int w) with
    | inl _ => []
    | inr c =>
        match result (mqtt_notify.connect_and_wait w c) with
        | inl _ => []
        | inr _ => [(topic, payload_json)]
        end
    end.

(** An example run: the scenario of the specification. *)
Definition scenario_args : Args :=
  {| version := "2.0.0"; sha256 := "abc123"; repo := "org/fw";
     target := "fleet"; device := None; force := false; dry_run := false |}.

(** A world in which the broker answers: the given environment variables, a
    connection that is up after one second, and an acknowledged publish. *)
Definition scenario_world (vars : list (string * string)) : World :=
  {| environ := list_to_map vars;
     utcnow_isoformat := "2026-01-01T00:00:00+00:00";
     time_time := 1767225600;
     connect_raises := None;
     connected_after := fun n => (0 <? n)%nat;
     publish_raises := None;
     is_published := true |}.

(** The connection settings, with no signing key. *)
Definition broker_vars : list (string * string) :=
  [("MQTT_BROKER", "broker.example"); ("MQTT_USERNAME", "ci");
   ("MQTT_PASSWORD", "pw")]%string.

(** The first line printed when no signing key is set. *)
Definition unsigned_warning : event :=
  Print "WARNING: OTA_SIGNING_KEY not set - payload will NOT be signed".

(** The table with the entry of key [k] set to [entry]; the key object [id]
    is appended to the order of insertion when the key is new. *)
Definition devices_with (devices : OrderedDict) (id : json) (k : pykey)
  (entry : gmap string json) : OrderedDict :=
  {| od_keys := if bool_decide (is_Some (od_items devices !! k))
                then od_keys devices else od_keys devices ++ [id];
     od_items := <[k := entry]> (od_items devices) |}.

(** The JSON text of a flat object whose values are strings, the value it
    decodes to, and the message that carries it. *)
Definition object_text (items : list (string * string)) : string :=
  "{" +:+
  String.concat ", "
    (map (fun kv => dq +:+ fst kv +:+ dq +:+ ": " +:+ dq +:+ snd kv +:+ dq) items)
  +:+ "}".

Definition object_fields (items : list (string * string))
  : gmap string json :=
  list_to_map (map (fun kv => (fst kv, JStr (snd kv))) items).

Definition object_value (items : list (string * string)) : json :=
  JDict (object_fields items).

Definition message (topic : string) (items : list (string * string))
  : MQTTMessage :=
  {| topic := topic; payload := Py.encode (object_text items) |}.

(** The decoder of the examples: it decodes the listed objects. *)
Definition example_loads (known : list (list (string * string)))
  : list Z -> exn + json :=
  loads_of (map (fun items => (object_text items, object_value items)) known).

(** The payloads of the worked events. *)
Definition downloading_report : list (string * string) :=
  [("device_id", "dev-1"); ("status", "downloading")]%string.

Definition plain_heartbeat : list (string * string) :=
  [("device_id", "dev-1"); ("state", "stable")]%string.

Definition heartbeat_with_status : list (string * string) :=
  [("device_id", "dev-1"); ("status", "stable")]%string.

Definition failure_report : list (string * string) :=
  [("device_id", "dev-1"); ("status", "download_failed")]%string.

Definition first_report : list (string * string) :=
  [("device_id", "dev-1"); ("status", "idle"); ("ip", "10.0.0.5");
   ("rssi", "-61"); ("version", "1.2.0")]%string.

Definition bare_status : list (string * string) :=
  [("device_id", "dev-1"); ("status", "confirmed")]%string.

Definition first_heartbeat : list (string * string) :=
  [("device_id", "dev-9"); ("ip", "10.0.0.9")]%string.

Definition status_named_device : list (string * string) :=
  [("device_id", "status-7")]%string.

(** ** Summaries of a notifier run *)

(** The calls a run makes on the MQTT client, in order: every event but the
    lines printed and the sleeps. *)
Definition is_client_call (e : event) : bool :=
  match e with
  | Print _ | Sleep _ => false
  | _ => true
  end.

Definition client_calls (t : list event) : list event :=
  List.filter is_client_call t.

(** The one-second sleeps of a run. *)
Definition sleeps (t : list event) : nat :=
  length (List.filter (fun e => match e with Sleep _ => true | _ => false end) t).

(** The sleeps the wait for the connection makes. *)
Definition waited (w : World) : nat :=
  match result (mqtt_notify.wait_for_connection w 15 0) with
  | inr slept => slept
  | inl _ => O
  end.

(** The client calls of a run that is not a dry run and whose settings [c]
    are complete. *)
Definition session_calls (w : World) (c : Connection)
  (topic payload_json : string) : list event :=
  [ClientNew ("github-actions-ota-" +:+ pretty (time_time w));
   UsernamePwSet (username c) (password c)]
  ++ (if use_tls c then [TlsSet] else [])
  ++ [ClientConnect (broker c) (port c) 30]
  ++ match connect_raises w with
     | Some _ => []
     | None =>
         LoopStart ::
         (if connected_after w (waited w)
          then [Publish topic payload_json 1 true; WaitForPublish 10]
          else [])
     end
  ++ [LoopStop; Disconnect].

(** How such a run ends. *)
Definition session_result (w : World) : abort + unit :=
  match connect_raises w with
  | Some _ => inl (SysExit 1)
  | None =>
      if connected_after w (waited w) then
        match publish_raises w with
        | Some _ => inl (SysExit 1)
        | None => if is_published w then inr tt else inl (SysExit 1)
        end
      else inl (SysExit 1)
  end.

Definition run_calls (py_int : string -> option Z) (args : Args) (w : World)
  (topic payload_json : string) : list event :=
  if dry_run args then []
  else
    match result (mqtt_notify.read_connection py_int w) with
    | inl _ => []
    | inr c => session_calls w c topic payload_json
    end.

Definition run_result (py_int : string -> option Z) (args : Args) (w : World)
  : abort + unit :=
  if dry_run args then inr tt
  else
    match result (mqtt_notify.read_connection py_int w) with
    | inl ab => inl ab
    | inr _ => session_result w
    end.

(** The text [int] is applied to: [MQTT_PORT], or 8883. *)
Definition port_text (w : World) : string :=
  default "8883"%string (environ w !! "MQTT_PORT"%string).

(** An event other than a printed line that starts with [WARNING]. *)
Definition no_warning (e : event) : bool :=
  match e with
  | Print line => negb (String.prefix "WARNING" line)
  | _ => true
  end.


(** The arguments of the scenario, as a dry run. *)
Definition dry_run_args : Args :=
  {| version := "2.0.0"; sha256 := "abc123"; repo := "org/fw";
     target := "fleet"; device := None; force := false; dry_run := true |}.

(** ** The monitor: the connection callback and summaries of the table *)

(** The rows of the table agree with its entries: the key objects in the
    order list hash to distinct keys, and these are the keys that have an
    entry. *)
Definition rows_consistent (d : OrderedDict) : Prop :=
  List.NoDup (map hash_key (od_keys d))
  /\ forall k, is_Some (od_items d !! k) <-> In (Some k) (map hash_key (od_keys d)).

(** What [on_connect] does: the lines it prints and the subscriptions it
    makes on the client. *)
Inductive session_event :=
| Printed (line : string)
| Subscribed (filter : string) (qos : Z).

(** [on_connect(client, userdata, flags, rc)]. *)
Definition on_connect (rc : Z) : list session_event :=
  if rc =? 0 then
    [Printed "Connected to MQTT broker!";
     Subscribed "ota/status/#" 1;
     Subscribed "ota/heartbeat/#" 1;
     Printed "Subscribed to ota/status/# and ota/heartbeat/#";
     Printed ("Waiting for device messages..." +:+ Py.nl)]
  else [Printed ("Connection failed: " +:+ pretty rc)].

(** The levels of a topic name or filter: the parts between the slashes. *)
Fixpoint levels (s : string) : list string :=
  match s with
  | EmptyString => [EmptyString]
  | String c s' =>
      if Ascii.eqb c "/" then EmptyString :: levels s'
      else match levels s' with
           | l :: ls => String c l :: ls
           | [] => [String c EmptyString]
           end
  end.

(** The broker's rule for delivering a topic to a subscription: level by
    level, [+] stands for one level, and [#] for the levels that remain,
    none included. *)
Fixpoint topic_matches (filter topic : list string) : bool :=
  match filter with
  | [] => match topic with [] => true | _ :: _ => false end
  | l :: filter' =>
      if String.eqb l "#" then true
      else match topic with
           | [] => false
           | l' :: topic' =>
               (String.eqb l "+" || String.eqb l l') && topic_matches filter' topic'
           end
  end.

Definition delivered (filter topic : string) : bool :=
  topic_matches (levels filter) (levels topic).

(** A renderer that fails after its heading, as [print_fleet_status] does on
    an entry whose [free_heap] is a string. *)
Definition broken_status (devices : OrderedDict) : list string * option exn :=
  (["  ESP8266 OTA Fleet Monitor"%string],
   Some (Exn TypeError "unsupported operand type(s) for //: 'str' and 'int'")).

(** The status [entry_after] leaves, which does not depend on the time. *)
Definition status_after (topic : string) (p old : gmap string json)
  : option json :=
  let merged :=
    match p !! "status"%string with
    | Some v => Some v
    | None => old !! "status"%string
    end in
  if Py.contains "status" topic then merged
  else if Py.contains "heartbeat" topic then
    if in_names merged in_progress then merged
    else Some (default (JStr "stable") (p !! "state"%string))
  else merged.

(** * Properties *)

(** ** The built-ins on examples *)

Example contains_examples :
  Py.contains "status" "ota/status/dev-1" = true
  /\ Py.contains "status" "ota/heartbeat/dev-1" = false
  /\ Py.contains "heartbeat" "ota/heartbeat/dev-1" = true
  /\ Py.contains "status" "" = false
  /\ Py.contains "" "" = true.
Proof. repeat split; reflexivity. Qed.

Example str_take_examples :
  Py.str_take 16 "0420951ecd5a7c5fe54c30e771a996a6" = "0420951ecd5a7c5f"%string
  /\ Py.str_take 16 "abc123" = "abc123"%string
  /\ Py.str_take 1 "é!" = "é"%string.
Proof. repeat split; reflexivity. Qed.

Example lower_examples :
  Py.lower "TRUE" = "true"%string /\ Py.lower "False" = "false"%string.
Proof. split; reflexivity. Qed.

(** [True], [1], [1.0] and [2 * 2^-1] are one dictionary key, as in
    Python; a string is never the key of a number. *)
Example numeric_keys_coincide :
  hash_key (JBool true) = hash_key (JInt 1)
  /\ hash_key (JInt 1) = hash_key (JFloat (FFinite 1 0))
  /\ hash_key (JFloat (FFinite 2 (-1))) = hash_key (JInt 1)
  /\ hash_key (JInt 4) = hash_key (JFloat (FFinite 1 2))
  /\ hash_key (JStr "1") <> hash_key (JInt 1)
  /\ hash_key (JList []) = None.
Proof. repeat split; try reflexivity. discriminate. Qed.

(** ** SHA-256 and HMAC: known answers and the shape of a digest *)

Example round_constants_are_cube_roots :
  map (fun p => hashlib.iroot (fun r => r * r * r) 40 (p * 2 ^ 96) 0 mod 2 ^ 32)
      hashlib.first_primes = hashlib.K256.
Proof. vm_compute. reflexivity. Qed.

Example initial_hash_is_square_roots :
  map (fun p => hashlib.iroot (fun r => r * r) 40 (p * 2 ^ 64) 0 mod 2 ^ 32)
      (firstn 8 hashlib.first_primes) =
  [hashlib.ha hashlib.H_init; hashlib.hb hashlib.H_init;
   hashlib.hc hashlib.H_init; hashlib.hd hashlib.H_init;
   hashlib.he hashlib.H_init; hashlib.hf hashlib.H_init;
   hashlib.hg hashlib.H_init; hashlib.hh hashlib.H_init].
Proof. vm_compute. reflexivity. Qed.

Example sha256_abc :
  Py.hex (hashlib.digest (Py.encode "abc")) =
  "ba7816bf8f01cfea414140de5dae2223b00361a396177a9cb410ff61f20015ad"%string.
Proof. vm_compute. reflexivity. Qed.

Example sha256_two_blocks :
  Py.hex (hashlib.digest
    (Py.encode "abcdbcdecdefdefgefghfghighijhijkijkljklmklmnlmnomnopnopq")) =
  "248d6a61d20638b8e5c026930c3e6039a33ce45964ff2167f6ecedd419db06c1"%string.
Proof. vm_compute. reflexivity. Qed.

Example hmac_rfc4231_case2 :
  hmac.hexdigest (Py.encode "Jefe") (Py.encode "what do ya want for nothing?") =
  "5bdcc146bf60754e6a042426089575c75a003f089d2739839dec58b964ec3843"%string.
Proof. vm_compute. reflexivity. Qed.

Example hmac_empty_key :
  hmac.hexdigest [] (Py.encode "1.2.0|ab|u") =
  "38de3a3c67e4d7e31a4cbe53f86a60f49aa29f706332a84b6bc97a4bf4988888"%string.
Proof. vm_compute. reflexivity. Qed.

Example hmac_long_key :
  hmac.hexdigest (repeat 107 70) (Py.encode "1.2.0|ab|u") =
  "7ea6648502be64cf27979a139254276910246ffd592cf007b120ca3cce59f1aa"%string.
Proof. vm_compute. reflexivity. Qed.

Lemma hex_digit_lower (d : Z) : Py.is_lower_hex (Py.hex_digit d) = true.
Proof.
  destruct d as [|p|p]; try reflexivity.
  do 5 (try (destruct p as [p|p|]; try reflexivity)).
Qed.

Lemma hex_length (bs : list Z) :
  String.length (Py.hex bs) = (2 * length bs)%nat.
Proof.
  induction bs as [|b bs IH]; simpl; [reflexivity|].
  rewrite IH. lia.
Qed.

Lemma hex_lower (bs : list Z) (c : ascii) :
  In c (list_ascii_of_string (Py.hex bs)) -> Py.is_lower_hex c = true.
Proof.
  induction bs as [|b bs IH]; simpl; [tauto|].
  intros [<-|[<-|H]]; auto using hex_digit_lower.
Qed.

Lemma sha256_digest_length (msg : list Z) :
  length (hashlib.digest msg) = 32%nat.
Proof. reflexivity. Qed.

Lemma hmac_hexdigest_length (key msg : list Z) :
  String.length (hmac.hexdigest key msg) = 64%nat.
Proof.
  unfold hmac.hexdigest, hmac.digest.
  rewrite hex_length, sha256_digest_length. reflexivity.
Qed.

(** ** The signer *)

Lemma signing_key_truthy (w : World) :
  Py.truthy (signed_notify.signing_key w) = true <->
  signed_notify.signing_key w <> EmptyString.
Proof.
  destruct (signed_notify.signing_key w); simpl; split; congruence.
Qed.

Lemma signed_payload_with_key (args : Args) (w : World) :
  signed_notify.signing_key w <> EmptyString ->
  signed_notify.payload args w =
  signed_notify.base_payload args w ++
  [("signature"%string,
    JStr (signed_notify.compute_hmac_signature (version args) (sha256 args)
            (signed_notify.build_firmware_url (repo args) (version args))
            (signed_notify.signing_key w)))].
Proof.
  intros H. apply signing_key_truthy in H.
  unfold signed_notify.payload, signed_notify.sign_payload.
  rewrite H. reflexivity.
Qed.

Lemma signed_payload_without_key (args : Args) (w : World) :
  signed_notify.signing_key w = EmptyString ->
  signed_notify.payload args w = signed_notify.base_payload args w.
Proof.
  intros H.
  unfold signed_notify.payload, signed_notify.sign_payload.
  rewrite H. reflexivity.
Qed.

Example signature_end_to_end :
  signed_notify.compute_hmac_signature "2.0.0" "abc123"
    (signed_notify.build_firmware_url "org/fw" "2.0.0") "secret" =
  "0420951ecd5a7c5fe54c30e771a996a6eb0ae459e36bcb30b18bb26bc92f55ce"%string.
Proof. vm_compute. reflexivity. Qed.

(** C2. For a non-empty key, [compute_hmac_signature] returns the HMAC-SHA256
    of the text [version|sha256|url] under that key, as 64 lower-case
    hexadecimal characters; and the signature [main] puts in the payload is
    this function of the version, the checksum, the URL and the key, whatever
    the force flag, the timestamp and the other settings of the run are. *)
Theorem compute_hmac_signature_is_hmac_sha256
  (version sha256 url key : string) :
  key <> EmptyString ->
  let signature := signed_notify.compute_hmac_signature version sha256 url key in
  signature =
    Py.hex (hmac.digest (Py.encode key)
              (Py.encode (version +:+ "|" +:+ sha256 +:+ "|" +:+ url)))
  /\ String.length signature = 64%nat
  /\ (forall c, In c (list_ascii_of_string signature) ->
                Py.is_lower_hex c = true)
  /\ (forall (args : Args) (w : World),
        signed_notify.signing_key w = key ->
        cli.version args = version ->
        cli.sha256 args = sha256 ->
        signed_notify.build_firmware_url (repo args) (cli.version args) = url ->
        dict_get "signature" (signed_notify.payload args w) =
        Some (JStr signature)).
Proof.
  intros Hkey signature. subst signature.
  split; [reflexivity|].
  split; [apply hmac_hexdigest_length|].
  split; [intros c; apply hex_lower|].
  intros args w Hw Hv Hs Hu.
  rewrite signed_payload_with_key by congruence.
  rewrite Hw, Hu, Hv, Hs. reflexivity.
Qed.

Lemma compute_hmac_signature_is_hmac_sha256_witness :
  "secret"%string <> EmptyString /\
  String.length
    (signed_notify.compute_hmac_signature "2.0.0" "abc123"
       "https://github.com/org/fw/releases/download/v2.0.0/firmware.bin"
       "secret") = 64%nat.
Proof.
  split; [discriminate|].
  apply (compute_hmac_signature_is_hmac_sha256 "2.0.0" "abc123"
           "https://github.com/org/fw/releases/download/v2.0.0/firmware.bin"
           "secret").
  discriminate.
Defined.

(** ** The artifact URL *)

(** C4. The URL is built from the repository and the version alone, by the
    same function in both notifiers: the payload's [url] is that function of
    the two arguments whatever the rest of the run is, so two builds with the
    same repository and version carry the same URL; for [org/fw] and [2.0.0]
    it is the GitHub release address of the specification's scenario. *)
Theorem build_firmware_url_deterministic :
  mqtt_notify.build_firmware_url "org/fw" "2.0.0" =
    "https://github.com/org/fw/releases/download/v2.0.0/firmware.bin"%string
  /\ signed_notify.build_firmware_url "org/fw" "2.0.0" =
    "https://github.com/org/fw/releases/download/v2.0.0/firmware.bin"%string
  /\ (forall (args : Args) (w : World),
        dict_get "url" (mqtt_notify.payload args w) =
          Some (JStr (mqtt_notify.build_firmware_url (repo args) (version args)))
        /\ dict_get "url" (signed_notify.payload args w) =
          Some (JStr (signed_notify.build_firmware_url (repo args) (version args))))
  /\ (forall (a1 a2 : Args) (w1 w2 : World),
        repo a1 = repo a2 -> version a1 = version a2 ->
        dict_get "url" (mqtt_notify.payload a1 w1) =
          dict_get "url" (mqtt_notify.payload a2 w2)
        /\ dict_get "url" (signed_notify.payload a1 w1) =
          dict_get "url" (signed_notify.payload a2 w2)).
Proof.
  assert (Hurl : forall args w,
    dict_get "url" (mqtt_notify.payload args w) =
      Some (JStr (mqtt_notify.build_firmware_url (repo args) (version args)))
    /\ dict_get "url" (signed_notify.payload args w) =
      Some (JStr (signed_notify.build_firmware_url (repo args) (version args)))).
  { intros args w. split; [reflexivity|].
    unfold signed_notify.payload, signed_notify.sign_payload.
    destruct (Py.truthy (signed_notify.signing_key w)); reflexivity. }
  split; [reflexivity|]. split; [reflexivity|]. split; [exact Hurl|].
  intros a1 a2 w1 w2 Hr Hv.
  destruct (Hurl a1 w1) as [-> ->]. destruct (Hurl a2 w2) as [-> ->].
  rewrite Hr, Hv. split; reflexivity.
Qed.

(** ** Runs of the notifiers: what is published, and when *)

Lemma trace_bind {A B} (m : proc A) (k : A -> proc B) :
  trace (cli.bind m k) =
  trace m ++ match result m with inr a => trace (k a) | inl _ => [] end.
Proof.
  destruct m as [t [ab|a]]; simpl.
  - rewrite app_nil_r. reflexivity.
  - destruct (k a). reflexivity.
Qed.

Lemma result_bind {A B} (m : proc A) (k : A -> proc B) :
  result (cli.bind m k) =
  match result m with inr a => result (k a) | inl ab => inl ab end.
Proof.
  destruct m as [t [ab|a]]; simpl; [reflexivity|].
  destruct (k a). reflexivity.
Qed.

Lemma publishes_app (t1 t2 : list event) :
  publishes (t1 ++ t2) = publishes t1 ++ publishes t2.
Proof.
  induction t1 as [|e t1 IH]; simpl; [reflexivity|].
  destruct e; simpl; rewrite ?IH; reflexivity.
Qed.

Lemma publishes_bind {A B} (m : proc A) (k : A -> proc B) :
  publishes (trace (cli.bind m k)) =
  publishes (trace m) ++
  match result m with inr a => publishes (trace (k a)) | inl _ => [] end.
Proof.
  rewrite trace_bind, publishes_app. destruct (result m); reflexivity.
Qed.

Lemma get_env_publishes (w : World) (name : string) (default : option string) :
  publishes (trace (mqtt_notify.get_env w name default)) = [].
Proof.
  unfold mqtt_notify.get_env. destruct (environ_get w name default); reflexivity.
Qed.

Lemma bind_ret_l {A B} (a : A) (k : A -> proc B) :
  cli.bind (ret a) k = k a.
Proof. unfold cli.bind, ret. destruct (k a). reflexivity. Qed.

Ltac publishes_step :=
  rewrite publishes_bind; rewrite ?get_env_publishes; cbn [app];
  match goal with
  | |- context [result ?m] => destruct (result m) as [?|?]; [reflexivity|]
  end.

Lemma read_connection_publishes (py_int : string -> option Z) (w : World) :
  publishes (trace (mqtt_notify.read_connection py_int w)) = [].
Proof.
  unfold mqtt_notify.read_connection.
  do 2 publishes_step.
  destruct (py_int _); [|reflexivity].
  rewrite bind_ret_l.
  do 3 publishes_step.
  reflexivity.
Qed.

Ltac pub_simpl :=
  cbn [app emit print trace result fst snd publishes].

Lemma setup_client_publishes (w : World) (c : Connection) :
  publishes (trace (mqtt_notify.setup_client w c)) = [] /\
  result (mqtt_notify.setup_client w c) = inr tt.
Proof.
  unfold mqtt_notify.setup_client. destruct (use_tls c); split; reflexivity.
Qed.

Lemma wait_for_connection_publishes (w : World) (n i : nat) :
  publishes (trace (mqtt_notify.wait_for_connection w n i)) = [].
Proof.
  revert i. induction n as [|n IH]; intros i;
    cbn [mqtt_notify.wait_for_connection]; [reflexivity|].
  destruct (connected_after w i); [reflexivity|].
  rewrite !publishes_bind. pub_simpl. apply IH.
Qed.

Lemma connect_and_wait_publishes (w : World) (c : Connection) :
  publishes (trace (mqtt_notify.connect_and_wait w c)) = [].
Proof.
  unfold mqtt_notify.connect_and_wait.
  rewrite publishes_bind. pub_simpl.
  destruct (connect_raises w); [reflexivity|].
  rewrite !publishes_bind, wait_for_connection_publishes. pub_simpl.
  destruct (result _); [reflexivity|].
  destruct (connected_after w _); reflexivity.
Qed.

Lemma publish_and_wait_publishes (w : World) (topic payload_json : string) :
  publishes (trace (mqtt_notify.publish_and_wait w topic payload_json)) =
  [(topic, payload_json)].
Proof.
  unfold mqtt_notify.publish_and_wait.
  destruct (publish_raises w); reflexivity.
Qed.

Lemma guarded_publishes (body : proc unit) :
  publishes (trace (mqtt_notify.guarded body)) = publishes (trace body).
Proof.
  unfold mqtt_notify.guarded, finally, try_except.
  destruct body as [t [[code|e]|[]]]; simpl;
    rewrite ?publishes_app; simpl; rewrite ?app_nil_r; reflexivity.
Qed.

Lemma choose_topic_publishes (args : Args) :
  publishes (trace (mqtt_notify.choose_topic args)) = [] /\
  result (mqtt_notify.choose_topic args) = inr (mqtt_notify.topic args).
Proof.
  unfold mqtt_notify.topic, mqtt_notify.choose_topic.
  destruct (Py.truthy_opt (device args)); [split; reflexivity|].
  destruct (String.eqb (target args) "fleet"); split; reflexivity.
Qed.

(** The two notifiers choose the same topic. *)
Lemma topic_same (args : Args) :
  signed_notify.topic args = mqtt_notify.topic args.
Proof.
  unfold mqtt_notify.topic, mqtt_notify.choose_topic,
    signed_notify.topic, signed_notify.choose_topic.
  destruct (Py.truthy_opt (device args)); [reflexivity|].
  destruct (String.eqb (target args) "fleet"); reflexivity.
Qed.

Lemma signed_choose_topic_publishes (args : Args) :
  publishes (trace (signed_notify.choose_topic args)) = [] /\
  result (signed_notify.choose_topic args) = inr (signed_notify.topic args).
Proof.
  unfold signed_notify.topic, signed_notify.choose_topic.
  destruct (Py.truthy_opt (device args)); [split; reflexivity|].
  destruct (String.eqb (target args) "fleet"); split; reflexivity.
Qed.

Lemma main_publishes (json_dumps : list (string * json) -> string)
  (py_int : string -> option Z) (args : Args) (w : World) :
  publishes (trace (mqtt_notify.main json_dumps py_int args w)) =
  sent py_int args w (mqtt_notify.topic args)
    (json_dumps (mqtt_notify.payload args w)).
Proof.
  unfold mqtt_notify.main, sent. cbv zeta.
  destruct (choose_topic_publishes args) as [Ht Hr].
  rewrite publishes_bind, Ht, Hr. cbn [app].
  rewrite !publishes_bind. cbn [print emit trace result fst snd publishes app].
  destruct (dry_run args); [reflexivity|].
  rewrite publishes_bind, read_connection_publishes. cbn [app].
  destruct (result (mqtt_notify.read_connection py_int w)) as [?|c];
    [reflexivity|].
  destruct (setup_client_publishes w c) as [Hs Hsr].
  rewrite publishes_bind, Hs, Hsr. cbn [app].
  rewrite guarded_publishes, publishes_bind, connect_and_wait_publishes.
  cbn [app].
  destruct (result (mqtt_notify.connect_and_wait w c)); [reflexivity|].
  rewrite publishes_bind, publish_and_wait_publishes.
  destruct (result (mqtt_notify.publish_and_wait w _ _)) as [?|[]];
    [reflexivity| |]; rewrite ?publishes_bind; reflexivity.
Qed.

Lemma sign_payload_result (args : Args) (w : World) :
  publishes
    (trace (signed_notify.sign_payload args w (signed_notify.base_payload args w)))
    = [] /\
  result (signed_notify.sign_payload args w (signed_notify.base_payload args w))
    = inr (signed_notify.payload args w).
Proof.
  unfold signed_notify.payload, signed_notify.sign_payload.
  destruct (Py.truthy (signed_notify.signing_key w)); split; reflexivity.
Qed.

Lemma signed_main_publishes (json_dumps : list (string * json) -> string)
  (py_int : string -> option Z) (args : Args) (w : World) :
  publishes (trace (signed_notify.main json_dumps py_int args w)) =
  sent py_int args w (signed_notify.topic args)
    (json_dumps (signed_notify.payload args w)).
Proof.
  unfold signed_notify.main, sent. cbv zeta.
  destruct (sign_payload_result args w) as [Hp Hpr].
  rewrite publishes_bind, Hp, Hpr. cbn [app].
  destruct (signed_choose_topic_publishes args) as [Ht Hr].
  rewrite publishes_bind, Ht, Hr. cbn [app].
  rewrite !publishes_bind. pub_simpl.
  destruct (dry_run args); [reflexivity|].
  change (signed_notify.read_connection py_int w)
    with (mqtt_notify.read_connection py_int w).
  rewrite publishes_bind, read_connection_publishes. cbn [app].
  destruct (result (mqtt_notify.read_connection py_int w)) as [?|c];
    [reflexivity|].
  change (signed_notify.setup_client w c) with (mqtt_notify.setup_client w c).
  destruct (setup_client_publishes w c) as [Hs Hsr].
  rewrite publishes_bind, Hs, Hsr. cbn [app].
  change (@signed_notify.guarded) with (@mqtt_notify.guarded).
  change (signed_notify.connect_and_wait w c)
    with (mqtt_notify.connect_and_wait w c).
  rewrite guarded_publishes, publishes_bind, connect_and_wait_publishes.
  cbn [app].
  destruct (result (mqtt_notify.connect_and_wait w c)); [reflexivity|].
  change (signed_notify.publish_and_wait) with (mqtt_notify.publish_and_wait).
  rewrite publishes_bind, publish_and_wait_publishes.
  destruct (result (mqtt_notify.publish_and_wait w _ _)) as [?|[]];
    [reflexivity| |]; rewrite ?publishes_bind; [|reflexivity].
  pub_simpl.
  destruct (Py.truthy (signed_notify.signing_key w)); reflexivity.
Qed.

Lemma In_publishes (t : list event) (topic payload_json : string)
  (qos : Z) (retain : bool) :
  In (Publish topic payload_json qos retain) t ->
  In (topic, payload_json) (publishes t).
Proof.
  induction t as [|e t IH]; simpl; [tauto|].
  intros [->|H]; [left; reflexivity|].
  destruct e; simpl; auto.
Qed.

Lemma In_sent (py_int : string -> option Z) (args : Args) (w : World)
  (topic payload_json : string) (m : string * string) :
  In m (sent py_int args w topic payload_json) -> m = (topic, payload_json).
Proof.
  unfold sent.
  destruct (dry_run args); [intros []|].
  destruct (result (mqtt_notify.read_connection py_int w)); [intros []|].
  destruct (result (mqtt_notify.connect_and_wait w _)); [intros []|].
  intros [<-|[]]. reflexivity.
Qed.

(** ** Target resolution *)

(** C3, as stated, fails for an empty device id: with [--device ''] and
    [--target canary] the test [if args.device] is false and both notifiers
    choose the group topic, not [ota/device/]. *)
Lemma empty_device_id_falls_through :
  mqtt_notify.topic
    {| version := "1.2.0"; sha256 := "ab"; repo := "org/fw";
       target := "canary"; device := Some EmptyString;
       force := false; dry_run := false |} = "ota/group/canary"%string
  /\ signed_notify.topic
    {| version := "1.2.0"; sha256 := "ab"; repo := "org/fw";
       target := "canary"; device := Some EmptyString;
       force := false; dry_run := false |} = "ota/group/canary"%string
  /\ "ota/group/canary"%string <> ("ota/device/" +:+ EmptyString)%string.
Proof. repeat split; try reflexivity. discriminate. Qed.

(** C3, amended. Both notifiers map the selection to one topic: a device id
    that is given and not empty yields [ota/device/{id}] whatever the target
    is; without one (no [--device], or an empty one) the target [fleet]
    yields [ota/fleet/all] and any other target yields [ota/group/{target}];
    and whatever a run publishes goes to that topic. *)
Theorem topic_resolution (args : Args) :
  signed_notify.topic args = mqtt_notify.topic args
  /\ (forall id, device args = Some id -> id <> EmptyString ->
        mqtt_notify.topic args = ("ota/device/" +:+ id)%string)
  /\ (device args = None \/ device args = Some EmptyString ->
      target args = "fleet"%string ->
        mqtt_notify.topic args = "ota/fleet/all"%string)
  /\ (device args = None \/ device args = Some EmptyString ->
      target args <> "fleet"%string ->
        mqtt_notify.topic args = ("ota/group/" +:+ target args)%string)
  /\ (forall json_dumps py_int w m,
        In m (publishes (trace (mqtt_notify.main json_dumps py_int args w)))
        \/ In m (publishes (trace (signed_notify.main json_dumps py_int args w))) ->
        fst m = mqtt_notify.topic args).
Proof.
  split; [apply topic_same|].
  unfold mqtt_notify.topic at 1 2 3, mqtt_notify.choose_topic.
  split; [|split; [|split]].
  - intros id -> Hid. destruct id; [congruence|]. reflexivity.
  - intros [->| ->] ->; reflexivity.
  - intros Hd Ht. apply String.eqb_neq in Ht.
    destruct Hd as [->| ->]; simpl; rewrite Ht; reflexivity.
  - intros json_dumps py_int w m [H|H].
    + rewrite main_publishes in H. apply In_sent in H. subst m. reflexivity.
    + rewrite signed_main_publishes in H. apply In_sent in H. subst m.
      apply topic_same.
Qed.

(** ** Signing and the warning *)

Lemma signing_key_empty (w : World) :
  signed_notify.signing_key w = EmptyString <->
  environ w !! "OTA_SIGNING_KEY"%string = None \/
  environ w !! "OTA_SIGNING_KEY"%string = Some EmptyString.
Proof.
  unfold signed_notify.signing_key, environ_get.
  destruct (environ w !! "OTA_SIGNING_KEY"%string) as [v|]; simpl.
  - split; [intros ->; right; reflexivity|].
    intros [H|H]; congruence.
  - split; [left|]; reflexivity.
Qed.

Lemma base_payload_unsigned (args : Args) (w : World) :
  dict_get "signature" (signed_notify.base_payload args w) = None.
Proof. reflexivity. Qed.

Lemma signed_main_starts_with_warning
  (json_dumps : list (string * json) -> string)
  (py_int : string -> option Z) (args : Args) (w : World) :
  signed_notify.signing_key w = EmptyString ->
  exists rest,
    trace (signed_notify.main json_dumps py_int args w) =
    unsigned_warning :: rest.
Proof.
  intros Hkey. unfold signed_notify.main. cbv zeta.
  rewrite trace_bind.
  unfold signed_notify.sign_payload at 1. rewrite Hkey.
  cbn [Py.truthy]. rewrite trace_bind. cbn [print emit trace fst app].
  eexists. reflexivity.
Qed.

(** C7. The payload the signing notifier builds has a [signature] exactly
    when the signing key is set and not empty. When the key is absent or
    empty, the payload is the unsigned one (no HMAC is put in it), the run
    prints the warning, and the warning comes before anything is handed to
    [client.publish], whose payload text is that of the unsigned payload. *)
Theorem signature_iff_signing_key
  (json_dumps : list (string * json) -> string)
  (py_int : string -> option Z) (args : Args) (w : World) :
  (is_Some (dict_get "signature" (signed_notify.payload args w)) <->
   signed_notify.signing_key w <> EmptyString)
  /\ (signed_notify.signing_key w = EmptyString <->
      environ w !! "OTA_SIGNING_KEY"%string = None \/
      environ w !! "OTA_SIGNING_KEY"%string = Some EmptyString)
  /\ (signed_notify.signing_key w = EmptyString ->
      signed_notify.payload args w = signed_notify.base_payload args w
      /\ In unsigned_warning (trace (signed_notify.main json_dumps py_int args w))
      /\ forall pre topic payload_json qos retain post,
           trace (signed_notify.main json_dumps py_int args w) =
             pre ++ Publish topic payload_json qos retain :: post ->
           In unsigned_warning pre
           /\ payload_json = json_dumps (signed_notify.base_payload args w)).
Proof.
  split; [|split; [apply signing_key_empty|]].
  - split.
    + intros [v Hv] Hkey.
      rewrite signed_payload_without_key in Hv by assumption.
      rewrite base_payload_unsigned in Hv. discriminate.
    + intros Hkey. rewrite signed_payload_with_key by assumption.
      eexists. reflexivity.
  - intros Hkey.
    destruct (signed_main_starts_with_warning json_dumps py_int args w Hkey)
      as [rest Hrest].
    split; [apply signed_payload_without_key; assumption|].
    split; [rewrite Hrest; left; reflexivity|].
    intros pre topic payload_json qos retain post Hsplit.
    split.
    + rewrite Hrest in Hsplit. destruct pre as [|e pre]; simpl in Hsplit.
      * discriminate.
      * injection Hsplit as <- _. left. reflexivity.
    + assert (Hin : In (topic, payload_json)
                (publishes (trace (signed_notify.main json_dumps py_int args w)))).
      { apply In_publishes with (qos := qos) (retain := retain).
        rewrite Hsplit. apply in_or_app. right. left. reflexivity. }
      rewrite signed_main_publishes in Hin. apply In_sent in Hin.
      injection Hin as _ ->.
      rewrite signed_payload_without_key by assumption. reflexivity.
Qed.

(** A run of the scenario without a key does publish, so the ordering above
    speaks of a real transmission. *)
Example unsigned_scenario_publishes :
  publishes
    (trace (signed_notify.main (fun _ => "{}"%string) (fun _ => Some 8883)
              scenario_args (scenario_world broker_vars)))
  = [("ota/fleet/all"%string, "{}"%string)].
Proof. vm_compute. reflexivity. Qed.

(** ** The two notifiers without a key *)

(** C10. When no signing key is set (the variable is absent or empty), the
    signing notifier and the unsigned one build the same topic and the same
    payload, whose keys are [version], [url], [sha256], [force], [timestamp],
    [repo] and no [signature]; and the two runs hand the same messages to
    [client.publish]. *)
Theorem notifiers_agree_without_key
  (json_dumps : list (string * json) -> string)
  (py_int : string -> option Z) (args : Args) (w : World) :
  signed_notify.signing_key w = EmptyString ->
  signed_notify.topic args = mqtt_notify.topic args
  /\ signed_notify.payload args w = mqtt_notify.payload args w
  /\ dict_keys (signed_notify.payload args w) =
     ["version"; "url"; "sha256"; "force"; "timestamp"; "repo"]%string
  /\ dict_get "signature" (signed_notify.payload args w) = None
  /\ publishes (trace (signed_notify.main json_dumps py_int args w)) =
     publishes (trace (mqtt_notify.main json_dumps py_int args w)).
Proof.
  intros Hkey.
  pose proof (signed_payload_without_key args w Hkey) as Hp.
  split; [apply topic_same|].
  split; [rewrite Hp; reflexivity|].
  split; [rewrite Hp; reflexivity|].
  split; [rewrite Hp; reflexivity|].
  rewrite signed_main_publishes, main_publishes, topic_same, Hp.
  reflexivity.
Qed.

Lemma notifiers_agree_without_key_witness :
  signed_notify.signing_key (scenario_world broker_vars) = EmptyString
  /\ publishes
       (trace (signed_notify.main (fun _ => "{}"%string) (fun _ => Some 8883)
                 scenario_args (scenario_world broker_vars)))
     = publishes
       (trace (mqtt_notify.main (fun _ => "{}"%string) (fun _ => Some 8883)
                 scenario_args (scenario_world broker_vars))).
Proof.
  split; [reflexivity|].
  apply (notifiers_agree_without_key (fun _ => "{}"%string) (fun _ => Some 8883)
           scenario_args (scenario_world broker_vars)).
  reflexivity.
Defined.

(** ** The fleet monitor: what one message does to the table *)

Lemma od_get_modify (k : pykey) (f : gmap string json -> gmap string json)
  (d : OrderedDict) :
  od_get k (od_modify k f d) = f (od_get k d).
Proof.
  unfold od_get at 1, od_modify. simpl. rewrite lookup_insert_eq. reflexivity.
Qed.

Lemma od_modify_modify (k : pykey) (f g : gmap string json -> gmap string json)
  (d : OrderedDict) :
  od_modify k g (od_modify k f d) = od_modify k (fun e => g (f e)) d.
Proof.
  unfold od_modify at 1. rewrite od_get_modify.
  unfold od_modify. simpl. rewrite insert_insert_eq. reflexivity.
Qed.

Lemma od_modify_add (k : pykey) (id : json)
  (f : gmap string json -> gmap string json) (d : OrderedDict) :
  od_items d !! k = None ->
  od_modify k f (od_add id k d) = devices_with d id k (f (od_get k d)).
Proof.
  intros H. unfold devices_with.
  rewrite bool_decide_eq_false_2 by (intros [? ?]; congruence).
  unfold od_modify, od_add, od_get. simpl.
  rewrite lookup_insert_eq, insert_insert_eq, H. reflexivity.
Qed.

Lemma field_od_get (d : OrderedDict) (k : pykey) (name : string) :
  field d k name = od_get k d !! name.
Proof.
  unfold field, od_get. destruct (od_items d !! k); simpl; [reflexivity|].
  rewrite lookup_empty. reflexivity.
Qed.

Lemma field_devices_with (d : OrderedDict) (id : json) (k : pykey)
  (entry : gmap string json) (name : string) :
  field (devices_with d id k entry) k name = entry !! name.
Proof. unfold field, devices_with. simpl. rewrite lookup_insert_eq. reflexivity. Qed.

Lemma read_then_modify (k : pykey) (c : gmap string json -> bool)
  (f : OrderedDict -> OrderedDict) (d : OrderedDict) :
  sbind (read (od_get k)) (fun entry => if c entry then modify f else sret tt) d
  = (if c (od_get k d) then f d else d, [], inr tt).
Proof.
  unfold sbind, read, modify, sret. destruct (c (od_get k d)); reflexivity.
Qed.

Lemma state_sbind {A B} (m : step A) (k : A -> step B) (d : OrderedDict) :
  fst (fst (sbind m k d)) =
  match snd (m d) with
  | inl _ => fst (fst (m d))
  | inr a => fst (fst (k a (fst (fst (m d)))))
  end.
Proof.
  unfold sbind. destruct (m d) as [[d' out] [e|a]]; simpl; [reflexivity|].
  destruct (k a d') as [[d'' out'] r]. reflexivity.
Qed.

Section Reconciler.

Variable loads : list Z -> exn + json.
Variable print_fleet_status : OrderedDict -> list string * option exn.

Lemma on_message_state (devices : OrderedDict) (msg : MQTTMessage)
  (now : string) :
  devices_after (on_message loads print_fleet_status devices msg now) =
  fst (fst (on_message_body loads print_fleet_status msg now devices)).
Proof.
  unfold on_message.
  destruct (on_message_body loads print_fleet_status msg now devices)
    as [[d out] [e|?]]; [|reflexivity].
  destruct (is_JSONDecodeError _); [reflexivity|].
  destruct (is_Exception _); reflexivity.
Qed.

Lemma render_state (d : OrderedDict) :
  fst (fst (render print_fleet_status d)) = d.
Proof. unfold render. destruct (print_fleet_status d) as [? [?|]]; reflexivity. Qed.

Lemma body_after_lookup (msg : MQTTMessage) (now : string)
  (p : gmap string json) (k : pykey) (d : OrderedDict) :
  fst (fst (sbind (modify (od_modify k (dict_update p)))
    (fun _ =>
       sbind (modify (od_modify k (insert "last_seen"%string (JStr now))))
         (fun _ =>
            sbind
              (if Py.contains "status" (topic msg) then sret tt
               else if Py.contains "heartbeat" (topic msg) then
                 sbind (read (od_get k))
                   (fun entry =>
                      if negb (in_names (entry !! "status"%string) in_progress)
                      then
                        modify
                          (od_modify k
                             (insert "status"%string
                                (default (JStr "stable") (p !! "state"%string))))
                      else sret tt)
               else sret tt)
              (fun _ => render print_fleet_status))) d)) =
  od_modify k (fun e => entry_after (topic msg) p e now) d.
Proof.
  rewrite state_sbind. cbn [modify fst snd].
  rewrite state_sbind. cbn [modify fst snd].
  rewrite od_modify_modify, state_sbind.
  unfold entry_after, merged_entry.
  destruct (Py.contains "status" (topic msg)).
  { cbn [sret fst snd]. rewrite render_state. reflexivity. }
  destruct (Py.contains "heartbeat" (topic msg)).
  2:{ cbn [sret fst snd]. rewrite render_state. reflexivity. }
  rewrite (read_then_modify k
             (fun entry => negb (in_names (entry !! "status"%string) in_progress))).
  cbn [fst snd]. rewrite ?render_state, ?od_get_modify, ?od_modify_modify.
  unfold od_modify. cbv beta.
  destruct (negb (in_names _ in_progress)); reflexivity.
Qed.

(** An event that parses to an object with a hashable device id is merged
    into the entry of that id. *)
Lemma on_message_accepts (devices : OrderedDict) (msg : MQTTMessage)
  (now : string) (p : gmap string json) (k : pykey) :
  loads (payload msg) = inr (JDict p) ->
  hash_key (device_id_of p) = Some k ->
  devices_after (on_message loads print_fleet_status devices msg now) =
  devices_with devices (device_id_of p) k
    (entry_after (topic msg) p (od_get k devices) now).
Proof.
  intros Hl Hk. rewrite on_message_state.
  unfold on_message_body.
  rewrite state_sbind. cbn [lift fst snd]. rewrite Hl.
  rewrite state_sbind. cbn [lift fst snd get_method].
  rewrite state_sbind. cbn [lift fst snd]. unfold hashed.
  fold (device_id_of p). rewrite Hk.
  rewrite state_sbind. cbn [read fst snd].
  rewrite state_sbind.
  destruct (od_items devices !! k) as [old|] eqn:Hold.
  - rewrite bool_decide_eq_true_2 by eauto.
    cbn [sret fst snd]. rewrite body_after_lookup.
    unfold od_modify, devices_with. rewrite Hold.
    rewrite bool_decide_eq_true_2 by eauto. reflexivity.
  - rewrite bool_decide_eq_false_2 by (intros [? ?]; congruence).
    cbn [modify fst snd]. rewrite body_after_lookup.
    apply od_modify_add. assumption.
Qed.

(** A message whose handling raises before the table is touched. *)
Lemma on_message_rejects (devices : OrderedDict) (msg : MQTTMessage)
  (now : string) (e : exn) :
  on_message_body loads print_fleet_status msg now devices = (devices, [], inl e) ->
  is_Exception (exn_class e) = true ->
  devices_after (on_message loads print_fleet_status devices msg now) = devices
  /\ escaped (on_message loads print_fleet_status devices msg now) = None
  /\ (exn_class e = JSONDecodeError ->
      printed (on_message loads print_fleet_status devices msg now) = []).
Proof.
  intros Hb He. unfold on_message. rewrite Hb.
  destruct (is_JSONDecodeError (exn_class e)) eqn:Hj.
  - repeat split; reflexivity.
  - rewrite He. repeat split; try reflexivity.
    intros Hc. rewrite Hc in Hj. discriminate.
Qed.

Lemma unparseable_body (devices : OrderedDict) (msg : MQTTMessage)
  (now : string) (e : exn) :
  loads (payload msg) = inl e ->
  on_message_body loads print_fleet_status msg now devices = (devices, [], inl e).
Proof.
  intros Hl. unfold on_message_body, sbind, lift. rewrite Hl. reflexivity.
Qed.

End Reconciler.

Example object_text_example :
  Py.encode (object_text [("a", "b")]%string) =
  [123; 34; 97; 34; 58; 32; 34; 98; 34; 125].
Proof. reflexivity. Qed.

(** ** Heartbeats and the statuses in progress *)

(** C1, as stated, fails: a heartbeat whose payload carries a [status] field
    is merged like any other payload, so it replaces [downloading], a status
    in progress, by [stable]. *)
Lemma heartbeat_status_field_overwrites :
  let loads := example_loads [downloading_report; heartbeat_with_status] in
  let d1 :=
    devices_after
      (on_message loads quiet_status od_empty
         (message "ota/status/dev-1" downloading_report) "t0") in
  let d2 :=
    devices_after
      (on_message loads quiet_status d1
         (message "ota/heartbeat/dev-1" heartbeat_with_status) "t1") in
  field d1 (KStr "dev-1") "status" = Some (JStr "downloading")
  /\ in_names (field d1 (KStr "dev-1") "status") in_progress = true
  /\ field d2 (KStr "dev-1") "status" = Some (JStr "stable").
Proof. vm_compute. repeat split; reflexivity. Qed.

(** The scenario of the specification does hold: a heartbeat that carries
    [state] only leaves [downloading] alone, and a status event replaces
    it. *)
Example precedence_scenario :
  let loads :=
    example_loads [downloading_report; plain_heartbeat; failure_report] in
  let d1 :=
    devices_after
      (on_message loads quiet_status od_empty
         (message "ota/status/dev-1" downloading_report) "t0") in
  let d2 :=
    devices_after
      (on_message loads quiet_status d1
         (message "ota/heartbeat/dev-1" plain_heartbeat) "t1") in
  let d3 :=
    devices_after
      (on_message loads quiet_status d2
         (message "ota/status/dev-1" failure_report) "t2") in
  field d2 (KStr "dev-1") "status" = Some (JStr "downloading")
  /\ field d3 (KStr "dev-1") "status" = Some (JStr "download_failed").
Proof. vm_compute. repeat split; reflexivity. Qed.

Section ReconcilerClaims.

Variable loads : list Z -> exn + json.
Variable print_fleet_status : OrderedDict -> list string * option exn.

(** C1, amended. Take an event that parses to an object with a hashable
    device id. On a heartbeat topic (one that contains [heartbeat] and not
    [status]) and with no [status] field in the payload: when the device's
    status is one of [downloading], [self_test_running], [rebooting] it is
    left as it is, otherwise it becomes the payload's [state], or [stable]
    when there is none. On a topic that contains [status], a payload's
    [status] field becomes the device's status whatever it was. *)
Theorem heartbeat_precedence (devices : OrderedDict) (msg : MQTTMessage)
  (now : string) (p : gmap string json) (k : pykey) :
  loads (payload msg) = inr (JDict p) ->
  hash_key (device_id_of p) = Some k ->
  let after :=
    devices_after (on_message loads print_fleet_status devices msg now) in
  (Py.contains "status" (topic msg) = false ->
   Py.contains "heartbeat" (topic msg) = true ->
   p !! "status"%string = None ->
     (in_names (field devices k "status") in_progress = true ->
        field after k "status" = field devices k "status")
     /\ (in_names (field devices k "status") in_progress = false ->
        field after k "status" =
          Some (default (JStr "stable") (p !! "state"%string))))
  /\ (Py.contains "status" (topic msg) = true ->
      forall s, p !! "status"%string = Some s ->
        field after k "status" = Some s).
Proof.
  intros Hl Hk after. subst after.
  rewrite (on_message_accepts _ _ _ _ _ _ _ Hl Hk), field_devices_with.
  rewrite field_od_get. unfold entry_after, merged_entry, dict_update.
  split.
  - intros Hs Hh Hp. rewrite Hs, Hh.
    assert (Hm : <["last_seen"%string := JStr now]> (p ∪ od_get k devices)
                   !! "status"%string = od_get k devices !! "status"%string).
    { rewrite lookup_insert_ne by discriminate.
      rewrite lookup_union_r by assumption. reflexivity. }
    rewrite Hm. split; intros Hin; rewrite Hin; cbn [negb].
    + exact Hm.
    + apply lookup_insert_eq.
  - intros Hs s Hp. rewrite Hs.
    rewrite lookup_insert_ne by discriminate.
    apply lookup_union_Some_l. assumption.
Qed.

End ReconcilerClaims.

Lemma heartbeat_precedence_witness :
  let loads :=
    example_loads [downloading_report; plain_heartbeat; failure_report] in
  let d1 :=
    devices_after
      (on_message loads quiet_status od_empty
         (message "ota/status/dev-1" downloading_report) "t0") in
  loads (payload (message "ota/heartbeat/dev-1" plain_heartbeat)) =
    inr (object_value plain_heartbeat)
  /\ in_names (field d1 (KStr "dev-1") "status") in_progress = true
  /\ field
       (devices_after
          (on_message loads quiet_status d1
             (message "ota/heartbeat/dev-1" plain_heartbeat) "t1"))
       (KStr "dev-1") "status" = field d1 (KStr "dev-1") "status".
Proof.
  cbv zeta. split; [reflexivity|]. split; [reflexivity|].
  refine (proj1 (proj1
    (heartbeat_precedence
       (example_loads [downloading_report; plain_heartbeat; failure_report])
       quiet_status _ (message "ota/heartbeat/dev-1" plain_heartbeat) "t1"
       _ (KStr "dev-1") _ _) _ _ _) _); reflexivity.
Defined.

(** ** Merging, new devices, classification and malformed payloads *)

(** C5, as stated, fails: a status event that carries only [device_id] and
    [status] leaves [ip], [rssi] and [version] alone, but [last_seen], a
    field of the entry that the payload does not carry, does not keep its
    value: it is set to the arrival time of every accepted event. *)
Lemma last_seen_changes_without_payload_field :
  let loads := example_loads [first_report; bare_status] in
  let d1 :=
    devices_after
      (on_message loads quiet_status od_empty
         (message "ota/status/dev-1" first_report) "t0") in
  let d2 :=
    devices_after
      (on_message loads quiet_status d1
         (message "ota/status/dev-1" bare_status) "t1") in
  loads (payload (message "ota/status/dev-1" bare_status)) =
    inr (object_value bare_status)
  /\ object_fields bare_status !! "last_seen"%string = None
  /\ field d1 (KStr "dev-1") "last_seen" = Some (JStr "t0")
  /\ field d2 (KStr "dev-1") "last_seen" = Some (JStr "t1")
  /\ field d2 (KStr "dev-1") "ip" = Some (JStr "10.0.0.5")
  /\ field d2 (KStr "dev-1") "status" = Some (JStr "confirmed").
Proof. vm_compute. repeat split; reflexivity. Qed.

(** C8, as stated, fails: the first event seen for [dev-9], a heartbeat with
    no [state], creates an entry that holds more than the event's fields:
    [last_seen], and the status [stable] that the event does not carry. *)
Lemma first_heartbeat_adds_fields :
  let loads := example_loads [first_heartbeat] in
  let d1 :=
    devices_after
      (on_message loads quiet_status od_empty
         (message "ota/heartbeat/dev-9" first_heartbeat) "t0") in
  od_items d1 !! KStr "dev-9" =
    Some (list_to_map
            [("device_id", JStr "dev-9"); ("ip", JStr "10.0.0.9");
             ("last_seen", JStr "t0"); ("status", JStr "stable")]%string)
  /\ object_fields first_heartbeat !! "status"%string = None
  /\ object_fields first_heartbeat !! "state"%string = None.
Proof. vm_compute. repeat split; reflexivity. Qed.

(** What [entry_after] holds, field by field. *)
Lemma entry_after_other (t : string) (p old : gmap string json) (now f : string) :
  f <> "last_seen"%string -> f <> "status"%string ->
  entry_after t p old now !! f =
  match p !! f with Some v => Some v | None => old !! f end.
Proof.
  intros Hf Hs.
  assert (Hm : merged_entry p old now !! f =
               match p !! f with Some v => Some v | None => old !! f end).
  { unfold merged_entry, dict_update.
    rewrite lookup_insert_ne by congruence.
    destruct (p !! f) as [v|] eqn:Hp.
    - apply lookup_union_Some_l. assumption.
    - apply lookup_union_r. assumption. }
  unfold entry_after.
  destruct (Py.contains "status" t); [exact Hm|].
  destruct (Py.contains "heartbeat" t); [|exact Hm].
  destruct (negb _); [|exact Hm].
  rewrite lookup_insert_ne by congruence. exact Hm.
Qed.

Lemma entry_after_last_seen (t : string) (p old : gmap string json)
  (now : string) :
  entry_after t p old now !! "last_seen"%string = Some (JStr now).
Proof.
  unfold entry_after, merged_entry.
  destruct (Py.contains "status" t); [apply lookup_insert_eq|].
  destruct (Py.contains "heartbeat" t); [|apply lookup_insert_eq].
  destruct (negb _); [|apply lookup_insert_eq].
  rewrite lookup_insert_ne by discriminate. apply lookup_insert_eq.
Qed.

Lemma merged_entry_status (p old : gmap string json) (now : string) :
  merged_entry p old now !! "status"%string =
  match p !! "status"%string with
  | Some v => Some v
  | None => old !! "status"%string
  end.
Proof.
  unfold merged_entry, dict_update.
  rewrite lookup_insert_ne by discriminate.
  destruct (p !! "status"%string) as [v|] eqn:Hp.
  - apply lookup_union_Some_l. assumption.
  - apply lookup_union_r. assumption.
Qed.

Lemma entry_after_status_topic (t : string) (p old : gmap string json)
  (now : string) :
  Py.contains "status" t = true ->
  entry_after t p old now !! "status"%string =
  match p !! "status"%string with
  | Some v => Some v
  | None => old !! "status"%string
  end.
Proof.
  intros Hs. unfold entry_after. rewrite Hs. apply merged_entry_status.
Qed.

Lemma entry_after_heartbeat_topic (t : string) (p old : gmap string json)
  (now : string) :
  Py.contains "status" t = false ->
  Py.contains "heartbeat" t = true ->
  entry_after t p old now !! "status"%string =
  if in_names (merged_entry p old now !! "status"%string) in_progress
  then merged_entry p old now !! "status"%string
  else Some (default (JStr "stable") (p !! "state"%string)).
Proof.
  intros Hs Hh. unfold entry_after. rewrite Hs, Hh.
  destruct (in_names _ in_progress); cbn [negb]; [reflexivity|].
  apply lookup_insert_eq.
Qed.

Section ReconcilerFrame.

Variable loads : list Z -> exn + json.
Variable print_fleet_status : OrderedDict -> list string * option exn.

(** C5, amended. For an event that parses to an object with a hashable
    device id, every field other than [last_seen] and [status] is merged
    field by field: a field of the payload replaces the entry's, a field the
    payload lacks keeps its value. [last_seen] is always set to the arrival
    time. On a topic that contains [status] the [status] field is merged the
    same way, so a status event with only [device_id] and [status] leaves
    [ip], [rssi] and [version] as they were. No other device's entry
    changes. *)
Theorem merge_is_last_write_wins (devices : OrderedDict) (msg : MQTTMessage)
  (now : string) (p : gmap string json) (k : pykey) :
  loads (payload msg) = inr (JDict p) ->
  hash_key (device_id_of p) = Some k ->
  let after :=
    devices_after (on_message loads print_fleet_status devices msg now) in
  (forall f : string, f <> "last_seen"%string -> f <> "status"%string ->
     field after k f =
     match p !! f with Some v => Some v | None => field devices k f end)
  /\ field after k "last_seen" = Some (JStr now)
  /\ (Py.contains "status" (topic msg) = true ->
      field after k "status" =
      match p !! "status"%string with
      | Some v => Some v
      | None => field devices k "status"
      end)
  /\ (p !! "ip"%string = None -> p !! "rssi"%string = None ->
      p !! "version"%string = None ->
      field after k "ip" = field devices k "ip"
      /\ field after k "rssi" = field devices k "rssi"
      /\ field after k "version" = field devices k "version")
  /\ (forall k', k' <> k -> od_items after !! k' = od_items devices !! k').
Proof.
  intros Hl Hk after. subst after.
  rewrite (on_message_accepts _ _ _ _ _ _ _ Hl Hk).
  assert (Hother : forall f : string, f <> "last_seen"%string ->
    f <> "status"%string ->
    field (devices_with devices (device_id_of p) k
             (entry_after (topic msg) p (od_get k devices) now)) k f =
    match p !! f with Some v => Some v | None => field devices k f end).
  { intros f Hf Hs. rewrite field_devices_with, field_od_get.
    apply entry_after_other; assumption. }
  split; [exact Hother|].
  split; [rewrite field_devices_with; apply entry_after_last_seen|].
  split.
  { intros Hs. rewrite field_devices_with, field_od_get.
    apply entry_after_status_topic. assumption. }
  split.
  { intros Hip Hrssi Hver.
    rewrite !Hother by discriminate. rewrite Hip, Hrssi, Hver. auto. }
  intros k' Hne. unfold devices_with. simpl.
  apply lookup_insert_ne. congruence.
Qed.

(** C8, amended. An event that parses to an object is filed under its
    [device_id], or under ["unknown"] when it has none, provided that key is
    hashable. The first event for a key creates an entry made of the
    payload's fields and [last_seen], the arrival time; on a heartbeat topic
    the entry also gets a [status], the payload's [state] or [stable], unless
    the payload's own [status] is one in progress. Nothing in it comes from
    another device's entry, and no other entry changes. *)
Theorem first_event_creates_entry (devices : OrderedDict) (msg : MQTTMessage)
  (now : string) (p : gmap string json) (k : pykey) :
  loads (payload msg) = inr (JDict p) ->
  hash_key (device_id_of p) = Some k ->
  let after :=
    devices_after (on_message loads print_fleet_status devices msg now) in
  (p !! "device_id"%string = None -> k = KStr "unknown")
  /\ (forall id, p !! "device_id"%string = Some (JStr id) -> k = KStr id)
  /\ is_Some (od_items after !! k)
  /\ (od_items devices !! k = None ->
      od_items after !! k =
        Some (entry_after (topic msg) p ∅ now)
      /\ (forall f : string, f <> "last_seen"%string -> f <> "status"%string ->
            field after k f = p !! f)
      /\ field after k "last_seen" = Some (JStr now)
      /\ (Py.contains "status" (topic msg) = true ->
            field after k "status" = p !! "status"%string)
      /\ (Py.contains "status" (topic msg) = false ->
          Py.contains "heartbeat" (topic msg) = true ->
            field after k "status" =
            if in_names (p !! "status"%string) in_progress
            then p !! "status"%string
            else Some (default (JStr "stable") (p !! "state"%string))))
  /\ (forall k', k' <> k -> od_items after !! k' = od_items devices !! k').
Proof.
  intros Hl Hk after.
  assert (Hafter : od_items after !! k =
    Some (entry_after (topic msg) p (od_get k devices) now)).
  { subst after. rewrite (on_message_accepts _ _ _ _ _ _ _ Hl Hk).
    unfold devices_with. simpl. apply lookup_insert_eq. }
  assert (Hfield : forall f, field after k f =
    entry_after (topic msg) p (od_get k devices) now !! f).
  { intros f. unfold field. rewrite Hafter. reflexivity. }
  split.
  { intros Hnone. unfold device_id_of in Hk. rewrite Hnone in Hk.
    simpl in Hk. congruence. }
  split.
  { intros id Hid. unfold device_id_of in Hk. rewrite Hid in Hk.
    simpl in Hk. congruence. }
  split; [rewrite Hafter; eauto|].
  split.
  2:{ intros k' Hne. subst after.
      rewrite (on_message_accepts _ _ _ _ _ _ _ Hl Hk).
      unfold devices_with. simpl. apply lookup_insert_ne. congruence. }
  intros Hnew.
  assert (Hempty : od_get k devices = ∅).
  { unfold od_get. rewrite Hnew. reflexivity. }
  rewrite Hempty in Hafter, Hfield.
  assert (Hnone : forall f : string,
    match p !! f with Some v => Some v | None => (∅ : gmap string json) !! f end
    = p !! f).
  { intros f. destruct (p !! f); [reflexivity|apply lookup_empty]. }
  split; [exact Hafter|].
  split.
  { intros f Hf Hs. rewrite Hfield, entry_after_other by assumption.
    apply Hnone. }
  split; [rewrite Hfield; apply entry_after_last_seen|].
  split.
  { intros Hs. rewrite Hfield, entry_after_status_topic by assumption.
    apply Hnone. }
  intros Hs Hh.
  rewrite Hfield, entry_after_heartbeat_topic by assumption.
  rewrite merged_entry_status, Hnone. reflexivity.
Qed.

End ReconcilerFrame.

Lemma merge_is_last_write_wins_witness :
  let loads := example_loads [first_report; bare_status] in
  let d1 :=
    devices_after
      (on_message loads quiet_status od_empty
         (message "ota/status/dev-1" first_report) "t0") in
  let d2 :=
    devices_after
      (on_message loads quiet_status d1
         (message "ota/status/dev-1" bare_status) "t1") in
  hash_key (JStr "dev-1") = Some (KStr "dev-1")
  /\ field d2 (KStr "dev-1") "ip" = field d1 (KStr "dev-1") "ip"
  /\ field d2 (KStr "dev-1") "rssi" = field d1 (KStr "dev-1") "rssi"
  /\ field d2 (KStr "dev-1") "version" = field d1 (KStr "dev-1") "version".
Proof.
  cbv zeta. split; [reflexivity|].
  refine (proj1 (proj2 (proj2 (proj2
    (merge_is_last_write_wins
       (example_loads [first_report; bare_status]) quiet_status
       _ (message "ota/status/dev-1" bare_status) "t1"
       _ (KStr "dev-1") _ _)))) _ _ _); reflexivity.
Defined.

Lemma first_event_creates_entry_witness :
  let loads := example_loads [first_heartbeat] in
  let d1 :=
    devices_after
      (on_message loads quiet_status od_empty
         (message "ota/heartbeat/dev-9" first_heartbeat) "t0") in
  od_items od_empty !! KStr "dev-9" = None
  /\ field d1 (KStr "dev-9") "last_seen" = Some (JStr "t0").
Proof.
  cbv zeta. split; [reflexivity|].
  refine (proj1 (proj2 (proj2 (proj1 (proj2 (proj2 (proj2
    (first_event_creates_entry
       (example_loads [first_heartbeat]) quiet_status
       od_empty (message "ota/heartbeat/dev-9" first_heartbeat) "t0"
       _ (KStr "dev-9") _ _)))) _)))); reflexivity.
Defined.

Section ReconcilerErrors.

Variable loads : list Z -> exn + json.
Variable print_fleet_status : OrderedDict -> list string * option exn.

(** C9. A message whose topic contains [status] anywhere is handled as a
    status event: the outcome is that of the same payload on any other topic
    that contains [status] (such as [ota/status/...]), and the entry is the
    merged payload with no state derived from a heartbeat, also when the
    topic contains [heartbeat], as [ota/heartbeat/status-7] does. *)
Theorem status_substring_wins (devices : OrderedDict) (msg : MQTTMessage)
  (now : string) :
  Py.contains "status" (topic msg) = true ->
  (forall t' : string, Py.contains "status" t' = true ->
     on_message loads print_fleet_status devices
       {| topic := t'; payload := payload msg |} now =
     on_message loads print_fleet_status devices msg now)
  /\ (forall p k,
        loads (payload msg) = inr (JDict p) ->
        hash_key (device_id_of p) = Some k ->
        od_items
          (devices_after (on_message loads print_fleet_status devices msg now))
          !! k =
        Some (merged_entry p (od_get k devices) now))
  /\ Py.contains "status" "ota/heartbeat/status-7" = true
  /\ Py.contains "heartbeat" "ota/heartbeat/status-7" = true.
Proof.
  intros Hs. split; [|split; [|split; reflexivity]].
  - intros t' Ht'. unfold on_message, on_message_body.
    cbn [topic payload]. rewrite Hs, Ht'. reflexivity.
  - intros p k Hl Hk.
    rewrite (on_message_accepts _ _ _ _ _ _ _ Hl Hk).
    unfold devices_with, entry_after. simpl. rewrite Hs.
    apply lookup_insert_eq.
Qed.

Lemma loop_forever_rejected (devices : OrderedDict) (msg : MQTTMessage)
  (now : string) (rest : list (MQTTMessage * string)) :
  devices_after (on_message loads print_fleet_status devices msg now) = devices ->
  escaped (on_message loads print_fleet_status devices msg now) = None ->
  devices_after (loop_forever loads print_fleet_status devices ((msg, now) :: rest))
  = devices_after (loop_forever loads print_fleet_status devices rest)
  /\ escaped (loop_forever loads print_fleet_status devices ((msg, now) :: rest))
  = escaped (loop_forever loads print_fleet_status devices rest).
Proof.
  intros Hd He. cbn [loop_forever]. rewrite He, Hd. split; reflexivity.
Qed.

(** C6. A message whose payload cannot be decoded (the decoding raises
    [JSONDecodeError], [UnicodeDecodeError] or another [Exception]) leaves
    the whole table as it was, lets no exception out of the callback, and
    does not stop the stream: the messages after it are handled as if it had
    not been there. A [JSONDecodeError] is dropped without a line printed. *)
Theorem malformed_payload_is_dropped (devices : OrderedDict)
  (msg : MQTTMessage) (now : string) (e : exn) :
  loads (payload msg) = inl e ->
  is_Exception (exn_class e) = true ->
  devices_after (on_message loads print_fleet_status devices msg now) = devices
  /\ escaped (on_message loads print_fleet_status devices msg now) = None
  /\ (exn_class e = JSONDecodeError ->
      printed (on_message loads print_fleet_status devices msg now) = [])
  /\ (forall d0 before rest,
        devices_after
          (loop_forever loads print_fleet_status d0
             (before ++ (msg, now) :: rest)) =
        devices_after
          (loop_forever loads print_fleet_status d0 (before ++ rest))
        /\ escaped
          (loop_forever loads print_fleet_status d0
             (before ++ (msg, now) :: rest)) =
        escaped
          (loop_forever loads print_fleet_status d0 (before ++ rest))).
Proof.
  intros Hl He.
  assert (Hrej : forall d,
    devices_after (on_message loads print_fleet_status d msg now) = d
    /\ escaped (on_message loads print_fleet_status d msg now) = None
    /\ (exn_class e = JSONDecodeError ->
        printed (on_message loads print_fleet_status d msg now) = [])).
  { intros d. apply on_message_rejects; [|assumption].
    apply unparseable_body. assumption. }
  destruct (Hrej devices) as (Hd & Hesc & Hpr).
  split; [exact Hd|]. split; [exact Hesc|]. split; [exact Hpr|].
  intros d0 before. revert d0.
  induction before as [|[m t] before IH]; intros d0 rest.
  - destruct (Hrej d0) as (Hd0 & He0 & _).
    apply loop_forever_rejected; assumption.
  - cbn [app loop_forever].
    destruct (escaped (on_message loads print_fleet_status d0 m t));
      [split; reflexivity|].
    cbn [devices_after escaped]. apply IH.
Qed.

(** A payload that decodes to something other than an object, or whose
    [device_id] is a list or an object, is dropped too: the [AttributeError]
    or [TypeError] is raised before the table is written, and printed. *)
Lemma non_object_or_unhashable_is_dropped (devices : OrderedDict)
  (msg : MQTTMessage) (now : string) (v : json) :
  loads (payload msg) = inr v ->
  match v with
  | JDict p => hash_key (device_id_of p) = None
  | _ => True
  end ->
  devices_after (on_message loads print_fleet_status devices msg now) = devices
  /\ escaped (on_message loads print_fleet_status devices msg now) = None.
Proof.
  intros Hl Hv.
  assert (Hb : exists e,
    on_message_body loads print_fleet_status msg now devices = (devices, [], inl e)
    /\ is_Exception (exn_class e) = true).
  { unfold on_message_body, sbind, lift. rewrite Hl.
    destruct v; simpl; try (eexists; split; reflexivity).
    unfold hashed. fold (device_id_of d). rewrite Hv.
    eexists; split; reflexivity. }
  destruct Hb as (e & Hb & He).
  destruct (on_message_rejects loads print_fleet_status devices msg now e Hb He)
    as (Hd & Hesc & _).
  split; assumption.
Qed.

End ReconcilerErrors.

Lemma status_substring_wins_witness :
  let loads := example_loads [status_named_device] in
  Py.contains "status" "ota/heartbeat/status-7" = true
  /\ od_items
       (devices_after
          (on_message loads quiet_status od_empty
             (message "ota/heartbeat/status-7" status_named_device) "t0"))
       !! KStr "status-7" =
     Some (merged_entry
             (list_to_map [("device_id"%string, JStr "status-7")])
             (od_get (KStr "status-7") od_empty) "t0").
Proof.
  cbv zeta. split; [reflexivity|].
  refine (proj1 (proj2
    (status_substring_wins (example_loads [status_named_device]) quiet_status
       od_empty (message "ota/heartbeat/status-7" status_named_device) "t0" _))
    _ (KStr "status-7") _ _); reflexivity.
Defined.

(** The heartbeat of a device whose id contains [status] sets no status. *)
Example status_named_device_gets_no_status :
  field
    (devices_after
       (on_message (example_loads [status_named_device]) quiet_status od_empty
          (message "ota/heartbeat/status-7" status_named_device) "t0"))
    (KStr "status-7") "status" = None.
Proof. vm_compute. reflexivity. Qed.

Lemma malformed_payload_is_dropped_witness :
  let loads := example_loads [first_report] in
  let d1 :=
    devices_after
      (on_message loads quiet_status od_empty
         (message "ota/status/dev-1" first_report) "t0") in
  let junk := {| topic := "ota/status/dev-1"; payload := Py.encode "{oops" |} in
  loads (payload junk) = inl (Exn JSONDecodeError "Expecting value")
  /\ devices_after (on_message loads quiet_status d1 junk "t1") = d1.
Proof.
  cbv zeta. split; [reflexivity|].
  refine (proj1
    (malformed_payload_is_dropped (example_loads [first_report]) quiet_status
       _ {| topic := "ota/status/dev-1"; payload := Py.encode "{oops" |} "t1"
       (Exn JSONDecodeError "Expecting value") _ _)); reflexivity.
Defined.


(** * Further properties of the notifiers *)

Lemma client_calls_app (t1 t2 : list event) :
  client_calls (t1 ++ t2) = client_calls t1 ++ client_calls t2.
Proof. apply List.filter_app. Qed.

Lemma client_calls_bind {A B} (m : proc A) (k : A -> proc B) :
  client_calls (trace (cli.bind m k)) =
  client_calls (trace m) ++
  match result m with inr a => client_calls (trace (k a)) | inl _ => [] end.
Proof.
  rewrite trace_bind, client_calls_app. destruct (result m); reflexivity.
Qed.

Lemma get_env_calls (w : World) (name : string) (default : option string) :
  client_calls (trace (mqtt_notify.get_env w name default)) = [].
Proof.
  unfold mqtt_notify.get_env. destruct (environ_get w name default); reflexivity.
Qed.

Ltac calls_step :=
  rewrite client_calls_bind; rewrite ?get_env_calls; cbn [app];
  match goal with
  | |- context [result ?m] => destruct (result m) as [?|?]; [reflexivity|]
  end.

Lemma read_connection_calls (py_int : string -> option Z) (w : World) :
  client_calls (trace (mqtt_notify.read_connection py_int w)) = [].
Proof.
  unfold mqtt_notify.read_connection.
  do 2 calls_step.
  destruct (py_int _); [|reflexivity].
  rewrite bind_ret_l.
  do 3 calls_step.
  reflexivity.
Qed.

Lemma wait_for_connection_spec (w : World) (n i : nat) :
  exists j,
    result (mqtt_notify.wait_for_connection w n i) = inr j
    /\ (i <= j <= i + n)%nat
    /\ sleeps (trace (mqtt_notify.wait_for_connection w n i)) = (j - i)%nat
    /\ client_calls (trace (mqtt_notify.wait_for_connection w n i)) = []
    /\ (forall m, (i <= m < j)%nat -> connected_after w m = false)
    /\ ((j < i + n)%nat -> connected_after w j = true).
Proof.
  revert i. induction n as [|n IH]; intros i;
    cbn [mqtt_notify.wait_for_connection].
  - exists i. unfold sleeps.
    repeat split; simpl; try lia; try reflexivity; intros; lia.
  - destruct (connected_after w i) eqn:Hc.
    + exists i. unfold sleeps.
      repeat split; simpl; try lia; try reflexivity; try (intros; lia).
      intros _. exact Hc.
    + destruct (IH (S i)) as (j & Hr & Hb & Hs & Hcalls & Hbefore & Hafter).
      exists j.
      rewrite !result_bind, !trace_bind.
      cbn [emit print result trace fst snd app].
      split; [exact Hr|]. split; [lia|].
      split; [unfold sleeps in *; cbn [List.filter length]; rewrite Hs; lia|].
      split; [cbn [client_calls List.filter is_client_call]; exact Hcalls|].
      split.
      * intros m Hm. destruct (Nat.eq_dec m i) as [->|Hne]; [exact Hc|].
        apply Hbefore. lia.
      * intros Hj. apply Hafter. lia.
Qed.

Lemma waited_spec (w : World) :
  result (mqtt_notify.wait_for_connection w 15 0) = inr (waited w)
  /\ (waited w <= 15)%nat
  /\ sleeps (trace (mqtt_notify.wait_for_connection w 15 0)) = waited w
  /\ client_calls (trace (mqtt_notify.wait_for_connection w 15 0)) = []
  /\ (forall m, (m < waited w)%nat -> connected_after w m = false)
  /\ ((waited w < 15)%nat -> connected_after w (waited w) = true).
Proof.
  destruct (wait_for_connection_spec w 15 0)
    as (j & Hr & Hb & Hs & Hc & Hbefore & Hafter).
  unfold waited. rewrite Hr.
  split; [reflexivity|]. split; [lia|].
  split; [rewrite Hs; lia|]. split; [exact Hc|].
  split; [intros m Hm; apply Hbefore; lia|].
  intros Hj. apply Hafter. lia.
Qed.

Lemma setup_client_calls (w : World) (c : Connection) :
  client_calls (trace (mqtt_notify.setup_client w c)) =
  [ClientNew ("github-actions-ota-" +:+ pretty (time_time w));
   UsernamePwSet (username c) (password c)]
  ++ (if use_tls c then [TlsSet] else []).
Proof. unfold mqtt_notify.setup_client. destruct (use_tls c); reflexivity. Qed.

Lemma connect_and_wait_calls (w : World) (c : Connection) :
  client_calls (trace (mqtt_notify.connect_and_wait w c)) =
  ClientConnect (broker c) (port c) 30 ::
  match connect_raises w with Some _ => [] | None => [LoopStart] end
  /\ result (mqtt_notify.connect_and_wait w c) =
  match connect_raises w with
  | Some e => inl (Raised e)
  | None => if connected_after w (waited w) then inr tt else inl (SysExit 1)
  end.
Proof.
  destruct (waited_spec w) as (Hr & _ & _ & Hc & _).
  unfold mqtt_notify.connect_and_wait.
  rewrite client_calls_bind, result_bind.
  cbn [emit trace result fst snd client_calls List.filter is_client_call app].
  destruct (connect_raises w); [split; reflexivity|].
  rewrite !client_calls_bind, !result_bind, Hr, Hc.
  cbn [emit trace result fst snd client_calls List.filter is_client_call app].
  destruct (connected_after w (waited w)); split; reflexivity.
Qed.

Lemma publish_and_wait_calls (w : World) (topic payload_json : string) :
  client_calls (trace (mqtt_notify.publish_and_wait w topic payload_json)) =
  [Publish topic payload_json 1 true; WaitForPublish 10]
  /\ result (mqtt_notify.publish_and_wait w topic payload_json) =
  match publish_raises w with
  | Some e => inl (Raised e)
  | None => inr (is_published w)
  end.
Proof.
  unfold mqtt_notify.publish_and_wait.
  destruct (publish_raises w); split; reflexivity.
Qed.

Lemma guarded_calls (body : proc unit) :
  client_calls (trace (mqtt_notify.guarded body)) =
  client_calls (trace body) ++ [LoopStop; Disconnect]
  /\ result (mqtt_notify.guarded body) =
  match result body with
  | inl (Raised _) => inl (SysExit 1)
  | other => other
  end.
Proof.
  unfold mqtt_notify.guarded, finally, try_except.
  destruct body as [t [[code|e]|[]]]; simpl;
    rewrite ?client_calls_app; simpl; rewrite ?app_nil_r; split; reflexivity.
Qed.

Lemma choose_topic_calls (args : Args) :
  client_calls (trace (mqtt_notify.choose_topic args)) = [].
Proof.
  unfold mqtt_notify.choose_topic.
  destruct (Py.truthy_opt (device args)); [reflexivity|].
  destruct (String.eqb (target args) "fleet"); reflexivity.
Qed.

Lemma main_calls (json_dumps : list (string * json) -> string)
  (py_int : string -> option Z) (args : Args) (w : World) :
  client_calls (trace (mqtt_notify.main json_dumps py_int args w)) =
  run_calls py_int args w (mqtt_notify.topic args)
    (json_dumps (mqtt_notify.payload args w))
  /\ result (mqtt_notify.main json_dumps py_int args w) =
  run_result py_int args w.
Proof.
  unfold mqtt_notify.main, run_calls, run_result. cbv zeta.
  destruct (choose_topic_publishes args) as [_ Hr].
  rewrite client_calls_bind, result_bind, choose_topic_calls, Hr. cbn [app].
  rewrite !client_calls_bind, !result_bind.
  cbn [print emit trace result fst snd client_calls List.filter is_client_call app].
  destruct (dry_run args); [split; reflexivity|].
  rewrite client_calls_bind, result_bind, read_connection_calls. cbn [app].
  destruct (result (mqtt_notify.read_connection py_int w)) as [?|c];
    [split; reflexivity|].
  destruct (setup_client_publishes w c) as [_ Hsr].
  rewrite client_calls_bind, result_bind, setup_client_calls, Hsr.
  match goal with
  | |- context [mqtt_notify.guarded ?b] =>
      destruct (guarded_calls b) as [Hg Hgr]; rewrite Hg, Hgr
  end.
  destruct (connect_and_wait_calls w c) as [Hc Hcr].
  rewrite client_calls_bind, result_bind, Hc, Hcr.
  unfold session_calls, session_result.
  destruct (connect_raises w); [split; reflexivity|].
  destruct (connected_after w (waited w)); [|split; reflexivity].
  destruct (publish_and_wait_calls w (mqtt_notify.topic args)
              (json_dumps (mqtt_notify.payload args w))) as [Hp Hpr].
  rewrite client_calls_bind, result_bind, Hp, Hpr.
  destruct (publish_raises w); [split; reflexivity|].
  destruct (is_published w); split; reflexivity.
Qed.

Lemma signed_main_calls (json_dumps : list (string * json) -> string)
  (py_int : string -> option Z) (args : Args) (w : World) :
  client_calls (trace (signed_notify.main json_dumps py_int args w)) =
  run_calls py_int args w (signed_notify.topic args)
    (json_dumps (signed_notify.payload args w))
  /\ result (signed_notify.main json_dumps py_int args w) =
  run_result py_int args w.
Proof.
  unfold signed_notify.main, run_calls, run_result. cbv zeta.
  destruct (sign_payload_result args w) as [_ Hpr].
  assert (Hsign : client_calls (trace (signed_notify.sign_payload args w
                    (signed_notify.base_payload args w))) = []).
  { unfold signed_notify.sign_payload.
    destruct (Py.truthy (signed_notify.signing_key w)); reflexivity. }
  rewrite client_calls_bind, result_bind, Hsign, Hpr. cbn [app].
  destruct (signed_choose_topic_publishes args) as [_ Hr].
  assert (Htopic : client_calls (trace (signed_notify.choose_topic args)) = []).
  { unfold signed_notify.choose_topic.
    destruct (Py.truthy_opt (device args)); [reflexivity|].
    destruct (String.eqb (target args) "fleet"); reflexivity. }
  rewrite client_calls_bind, result_bind, Htopic, Hr. cbn [app].
  rewrite !client_calls_bind, !result_bind.
  cbn [print emit trace result fst snd client_calls List.filter is_client_call app].
  destruct (dry_run args); [split; reflexivity|].
  change (signed_notify.read_connection py_int w)
    with (mqtt_notify.read_connection py_int w).
  rewrite client_calls_bind, result_bind, read_connection_calls. cbn [app].
  destruct (result (mqtt_notify.read_connection py_int w)) as [?|c];
    [split; reflexivity|].
  change (signed_notify.setup_client w c) with (mqtt_notify.setup_client w c).
  destruct (setup_client_publishes w c) as [_ Hsr].
  rewrite client_calls_bind, result_bind, setup_client_calls, Hsr.
  change (@signed_notify.guarded) with (@mqtt_notify.guarded).
  match goal with
  | |- context [mqtt_notify.guarded ?b] =>
      destruct (guarded_calls b) as [Hg Hgr]; rewrite Hg, Hgr
  end.
  change (signed_notify.connect_and_wait w c)
    with (mqtt_notify.connect_and_wait w c).
  destruct (connect_and_wait_calls w c) as [Hc Hcr].
  rewrite client_calls_bind, result_bind, Hc, Hcr.
  unfold session_calls, session_result.
  destruct (connect_raises w); [split; reflexivity|].
  destruct (connected_after w (waited w)); [|split; reflexivity].
  change (signed_notify.publish_and_wait) with (mqtt_notify.publish_and_wait).
  destruct (publish_and_wait_calls w (signed_notify.topic args)
              (json_dumps (signed_notify.payload args w))) as [Hp Hpr'].
  rewrite client_calls_bind, result_bind, Hp, Hpr'.
  destruct (publish_raises w); [split; reflexivity|].
  destruct (is_published w); [|split; reflexivity].
  rewrite !client_calls_bind, !result_bind.
  cbn [print emit trace result fst snd client_calls List.filter is_client_call app].
  destruct (Py.truthy (signed_notify.signing_key w)); split; reflexivity.
Qed.

Lemma get_env_result (w : World) (name : string) (default : option string) :
  result (mqtt_notify.get_env w name default) =
  match environ_get w name default with
  | None => inl (SysExit 1)
  | Some v => inr v
  end.
Proof.
  unfold mqtt_notify.get_env. destruct (environ_get w name default); reflexivity.
Qed.

Lemma read_connection_result (py_int : string -> option Z) (w : World) :
  result (mqtt_notify.read_connection py_int w) =
  match environ w !! "MQTT_BROKER"%string with
  | None => inl (SysExit 1)
  | Some b =>
      match py_int (port_text w) with
      | None =>
          inl (Raised ("invalid literal for int() with base 10: '"
                       +:+ port_text w +:+ "'"))
      | Some p =>
          match environ w !! "MQTT_USERNAME"%string with
          | None => inl (SysExit 1)
          | Some u =>
              match environ w !! "MQTT_PASSWORD"%string with
              | None => inl (SysExit 1)
              | Some pw =>
                  inr {| broker := b; port := p; username := u; password := pw;
                         use_tls :=
                           String.eqb
                             (Py.lower
                                (default "true"%string
                                   (environ w !! "MQTT_USE_TLS"%string)))
                             "true" |}
              end
          end
      end
  end.
Proof.
  unfold mqtt_notify.read_connection, port_text.
  rewrite result_bind, get_env_result. unfold environ_get at 1.
  destruct (environ w !! "MQTT_BROKER"%string) as [b|]; [|reflexivity].
  rewrite result_bind, get_env_result. unfold environ_get at 1.
  assert (Hport : match environ w !! "MQTT_PORT"%string with
                  | Some v => Some v | None => Some "8883"%string end =
                  Some (default "8883"%string (environ w !! "MQTT_PORT"%string))).
  { destruct (environ w !! "MQTT_PORT"%string); reflexivity. }
  rewrite Hport. rewrite result_bind.
  destruct (py_int _) as [p|]; [|reflexivity].
  cbn [ret result snd].
  rewrite result_bind, get_env_result. unfold environ_get at 1.
  destruct (environ w !! "MQTT_USERNAME"%string) as [u|]; [|reflexivity].
  rewrite result_bind, get_env_result. unfold environ_get at 1.
  destruct (environ w !! "MQTT_PASSWORD"%string) as [pw|]; [|reflexivity].
  rewrite result_bind, get_env_result. unfold environ_get at 1.
  destruct (environ w !! "MQTT_USE_TLS"%string); reflexivity.
Qed.

Section NotifierRuns.

Variable json_dumps : list (string * json) -> string.
Variable py_int : string -> option Z.
Variable args : Args.
Variable w : World.

(** X1. A dry run of either notifier makes no call on the MQTT client (no
    client is created, nothing is connected or published) and returns
    normally, whatever the environment holds. *)
Theorem dry_run_makes_no_client_call :
  dry_run args = true ->
  client_calls (trace (mqtt_notify.main json_dumps py_int args w)) = []
  /\ result (mqtt_notify.main json_dumps py_int args w) = inr tt
  /\ client_calls (trace (signed_notify.main json_dumps py_int args w)) = []
  /\ result (signed_notify.main json_dumps py_int args w) = inr tt.
Proof.
  intros Hdry.
  destruct (main_calls json_dumps py_int args w) as [Hc Hr].
  destruct (signed_main_calls json_dumps py_int args w) as [Hc' Hr'].
  rewrite Hc, Hr, Hc', Hr'. unfold run_calls, run_result. rewrite Hdry.
  repeat split; reflexivity.
Qed.

(** X2. Outside a dry run, when [MQTT_BROKER] is not set, or the port text
    is a number and [MQTT_USERNAME] or [MQTT_PASSWORD] is not set, either
    notifier exits with status 1 before any call on the MQTT client. *)
Theorem missing_setting_stops_before_connecting :
  dry_run args = false ->
  environ w !! "MQTT_BROKER"%string = None
  \/ (is_Some (py_int (port_text w))
      /\ (environ w !! "MQTT_USERNAME"%string = None
          \/ environ w !! "MQTT_PASSWORD"%string = None)) ->
  result (mqtt_notify.main json_dumps py_int args w) = inl (SysExit 1)
  /\ client_calls (trace (mqtt_notify.main json_dumps py_int args w)) = []
  /\ result (signed_notify.main json_dumps py_int args w) = inl (SysExit 1)
  /\ client_calls (trace (signed_notify.main json_dumps py_int args w)) = [].
Proof.
  intros Hdry Hmiss.
  destruct (main_calls json_dumps py_int args w) as [Hc Hr].
  destruct (signed_main_calls json_dumps py_int args w) as [Hc' Hr'].
  rewrite Hc, Hr, Hc', Hr'. unfold run_calls, run_result. rewrite Hdry.
  assert (Hrc : result (mqtt_notify.read_connection py_int w) = inl (SysExit 1)).
  { rewrite read_connection_result.
    destruct Hmiss as [->|[[p Hp] Hmiss]]; [reflexivity|].
    rewrite Hp.
    destruct (environ w !! "MQTT_BROKER"%string); [|reflexivity].
    destruct Hmiss as [->| ->]; [reflexivity|].
    destruct (environ w !! "MQTT_USERNAME"%string); reflexivity. }
  rewrite Hrc. repeat split; reflexivity.
Qed.


End NotifierRuns.

Lemma In_client_calls (t : list event) (e : event) :
  is_client_call e = true -> In e t -> In e (client_calls t).
Proof. intros He Hin. apply List.filter_In. split; assumption. Qed.

Lemma run_calls_connect (py_int : string -> option Z) (args : Args) (w : World)
  (topic text : string) (b : string) (p k : Z) :
  In (ClientConnect b p k) (run_calls py_int args w topic text) ->
  k = 30
  /\ exists pre,
       run_calls py_int args w topic text = pre ++ [LoopStop; Disconnect].
Proof.
  unfold run_calls.
  destruct (dry_run args); [intros []|].
  destruct (result (mqtt_notify.read_connection py_int w)) as [?|c];
    [intros []|].
  unfold session_calls. intros Hin. split.
  - repeat (apply in_app_or in Hin; destruct Hin as [Hin|Hin]);
      simpl in Hin.
    + destruct Hin as [Hin|[Hin|[]]]; discriminate.
    + destruct (use_tls c); simpl in Hin; [destruct Hin as [Hin|[]]|destruct Hin];
        discriminate.
    + destruct Hin as [Hin|[]]. congruence.
    + destruct (connect_raises w); [destruct Hin|].
      destruct Hin as [Hin|Hin]; [discriminate|].
      destruct (connected_after w (waited w)); simpl in Hin;
        [destruct Hin as [Hin|[Hin|[]]]|destruct Hin]; discriminate.
    + destruct Hin as [Hin|[Hin|[]]]; discriminate.
  - eexists. rewrite !app_assoc. reflexivity.
Qed.

Lemma run_calls_publish (py_int : string -> option Z) (args : Args) (w : World)
  (topic text : string) (t pj : string) (q : Z) (r : bool) :
  In (Publish t pj q r) (run_calls py_int args w topic text) ->
  q = 1 /\ r = true /\ t = topic /\ pj = text
  /\ dry_run args = false
  /\ connect_raises w = None
  /\ connected_after w (waited w) = true.
Proof.
  unfold run_calls.
  destruct (dry_run args); [intros []|].
  destruct (result (mqtt_notify.read_connection py_int w)) as [?|c];
    [intros []|].
  unfold session_calls. intros Hin.
  repeat (apply in_app_or in Hin; destruct Hin as [Hin|Hin]); simpl in Hin.
  - destruct Hin as [Hin|[Hin|[]]]; discriminate.
  - destruct (use_tls c); simpl in Hin; [destruct Hin as [Hin|[]]|destruct Hin];
      discriminate.
  - destruct Hin as [Hin|[]]. discriminate.
  - destruct (connect_raises w); [destruct Hin|].
    destruct Hin as [Hin|Hin]; [discriminate|].
    destruct (connected_after w (waited w)); simpl in Hin; [|destruct Hin].
    destruct Hin as [Hin|[Hin|[]]]; [|discriminate].
    injection Hin as <- <- <- <-. repeat split; reflexivity.
  - destruct Hin as [Hin|[Hin|[]]]; discriminate.
Qed.

Lemma sent_at_most_one (py_int : string -> option Z) (args : Args) (w : World)
  (topic text : string) :
  (length (sent py_int args w topic text) <= 1)%nat.
Proof.
  unfold sent. destruct (dry_run args); [simpl; lia|].
  destruct (result (mqtt_notify.read_connection py_int w)); [simpl; lia|].
  destruct (result (mqtt_notify.connect_and_wait w _)); simpl; lia.
Qed.

(** X6. Whenever a run calls [client.connect] (always with keepalive 30),
    its last two client calls are [loop_stop] and [disconnect], however the
    run ends. *)
Theorem connect_is_always_cleaned_up
  (json_dumps : list (string * json) -> string)
  (py_int : string -> option Z) (args : Args) (w : World) :
  (forall b p k,
     In (ClientConnect b p k) (trace (mqtt_notify.main json_dumps py_int args w)) ->
     k = 30
     /\ exists pre,
          client_calls (trace (mqtt_notify.main json_dumps py_int args w)) =
          pre ++ [LoopStop; Disconnect])
  /\ (forall b p k,
     In (ClientConnect b p k) (trace (signed_notify.main json_dumps py_int args w)) ->
     k = 30
     /\ exists pre,
          client_calls (trace (signed_notify.main json_dumps py_int args w)) =
          pre ++ [LoopStop; Disconnect]).
Proof.
  destruct (main_calls json_dumps py_int args w) as [Hc _].
  destruct (signed_main_calls json_dumps py_int args w) as [Hc' _].
  split; intros b p k Hin;
    (apply In_client_calls in Hin; [|reflexivity]).
  - rewrite Hc in Hin |- *. exact (run_calls_connect _ _ _ _ _ _ _ _ Hin).
  - rewrite Hc' in Hin |- *. exact (run_calls_connect _ _ _ _ _ _ _ _ Hin).
Qed.

(** X7. A run publishes at most once; a publish is always at QoS 1 and
    retained, and is made only outside a dry run, after [connect] returned
    without raising and the connection flag was seen up. *)
Theorem publish_is_single_retained_and_connected
  (json_dumps : list (string * json) -> string)
  (py_int : string -> option Z) (args : Args) (w : World) :
  (forall t pj q r,
     In (Publish t pj q r) (trace (mqtt_notify.main json_dumps py_int args w))
     \/ In (Publish t pj q r) (trace (signed_notify.main json_dumps py_int args w)) ->
     q = 1 /\ r = true
     /\ dry_run args = false
     /\ connect_raises w = None
     /\ connected_after w (waited w) = true)
  /\ (length (publishes (trace (mqtt_notify.main json_dumps py_int args w))) <= 1)%nat
  /\ (length (publishes (trace (signed_notify.main json_dumps py_int args w))) <= 1)%nat.
Proof.
  destruct (main_calls json_dumps py_int args w) as [Hc _].
  destruct (signed_main_calls json_dumps py_int args w) as [Hc' _].
  split; [|split].
  - intros t pj q r [Hin|Hin];
      (apply In_client_calls in Hin; [|reflexivity]).
    + rewrite Hc in Hin. apply run_calls_publish in Hin. tauto.
    + rewrite Hc' in Hin. apply run_calls_publish in Hin. tauto.
  - rewrite main_publishes. apply sent_at_most_one.
  - rewrite signed_main_publishes. apply sent_at_most_one.
Qed.





(** ** Texts: concatenation *)

Lemma append_cons (x : ascii) (a b : string) :
  String x a +:+ b = String x (a +:+ b).
Proof. reflexivity. Qed.

Lemma append_assoc (a b c : string) : (a +:+ b) +:+ c = a +:+ (b +:+ c).
Proof.
  induction a as [|x a IH]; [reflexivity|].
  rewrite !append_cons, IH. reflexivity.
Qed.

Lemma append_inv_head (a b c : string) : a +:+ b = a +:+ c -> b = c.
Proof.
  induction a as [|x a IH]; [auto|].
  rewrite !append_cons. intros H. injection H as H. auto.
Qed.

Lemma list_ascii_of_append (a b : string) :
  list_ascii_of_string (a +:+ b) =
  list_ascii_of_string a ++ list_ascii_of_string b.
Proof.
  induction a as [|x a IH]; [reflexivity|].
  rewrite append_cons. cbn [list_ascii_of_string app]. rewrite IH. reflexivity.
Qed.

Lemma append_inv_tail (a b c : string) : a +:+ c = b +:+ c -> a = b.
Proof.
  intros H. apply (f_equal list_ascii_of_string) in H.
  rewrite !list_ascii_of_append in H. apply app_inv_tail in H.
  rewrite <- (string_of_list_ascii_of_string a),
          <- (string_of_list_ascii_of_string b), H.
  reflexivity.
Qed.

(** X9. The signed text joins its fields with [|] and does not escape a [|]
    inside a field: moving a [|]-separated part from the end of the version
    to the front of the checksum leaves the signature unchanged, so two
    different (version, checksum) pairs can carry one signature. *)
Theorem signature_separator_is_ambiguous (version part sha256 url key : string) :
  signed_notify.compute_hmac_signature (version +:+ "|" +:+ part) sha256 url key =
  signed_notify.compute_hmac_signature version (part +:+ "|" +:+ sha256) url key.
Proof.
  unfold signed_notify.compute_hmac_signature. cbv zeta.
  rewrite !append_assoc. reflexivity.
Qed.

(** X10. For a fixed repository the URL determines the version, and for a
    fixed version it determines the repository; but it does not determine the
    pair: a repository that ends in [/releases/download/v...] collides with a
    version that starts with it. *)
Theorem firmware_url_determines_each_argument :
  (forall repo v1 v2,
     signed_notify.build_firmware_url repo v1 =
     signed_notify.build_firmware_url repo v2 -> v1 = v2)
  /\ (forall r1 r2 version,
     signed_notify.build_firmware_url r1 version =
     signed_notify.build_firmware_url r2 version -> r1 = r2)
  /\ (forall repo part version,
     signed_notify.build_firmware_url
       (repo +:+ "/releases/download/v" +:+ part) version =
     signed_notify.build_firmware_url repo
       (part +:+ "/releases/download/v" +:+ version)).
Proof.
  unfold signed_notify.build_firmware_url. split; [|split].
  - intros repo v1 v2 H.
    apply append_inv_head, append_inv_head, append_inv_head in H.
    apply append_inv_tail in H. exact H.
  - intros r1 r2 version H.
    apply append_inv_head in H. apply append_inv_tail in H. exact H.
  - intros repo part version. rewrite !append_assoc. reflexivity.
Qed.

Lemma no_warning_bind {A B} (m : proc A) (k : A -> proc B) :
  forallb no_warning (trace m) = true ->
  (forall a, result m = inr a -> forallb no_warning (trace (k a)) = true) ->
  forallb no_warning (trace (cli.bind m k)) = true.
Proof.
  intros Hm Hk. rewrite trace_bind, forallb_app, Hm.
  destruct (result m) as [?|a]; [reflexivity|]. apply Hk. reflexivity.
Qed.

Lemma get_env_no_warning (w : World) (name : string) (default : option string) :
  forallb no_warning (trace (mqtt_notify.get_env w name default)) = true.
Proof.
  unfold mqtt_notify.get_env. destruct (environ_get w name default); reflexivity.
Qed.

Lemma read_connection_no_warning (py_int : string -> option Z) (w : World) :
  forallb no_warning (trace (mqtt_notify.read_connection py_int w)) = true.
Proof.
  unfold mqtt_notify.read_connection.
  repeat (apply no_warning_bind; [try apply get_env_no_warning|intros ? _]);
    try reflexivity.
  destruct (py_int _); reflexivity.
Qed.

Lemma wait_for_connection_no_warning (w : World) (n i : nat) :
  forallb no_warning (trace (mqtt_notify.wait_for_connection w n i)) = true.
Proof.
  revert i. induction n as [|n IH]; intros i;
    cbn [mqtt_notify.wait_for_connection]; [reflexivity|].
  destruct (connected_after w i); [reflexivity|].
  repeat (apply no_warning_bind; [reflexivity|intros ? _]). apply IH.
Qed.

Lemma connect_and_wait_no_warning (w : World) (c : Connection) :
  forallb no_warning (trace (mqtt_notify.connect_and_wait w c)) = true.
Proof.
  unfold mqtt_notify.connect_and_wait.
  apply no_warning_bind; [reflexivity|intros ? _].
  destruct (connect_raises w); [reflexivity|].
  apply no_warning_bind; [reflexivity|intros ? _].
  apply no_warning_bind; [apply wait_for_connection_no_warning|intros ? _].
  destruct (connected_after w _); reflexivity.
Qed.

Lemma guarded_no_warning (body : proc unit) :
  forallb no_warning (trace body) = true ->
  forallb no_warning (trace (mqtt_notify.guarded body)) = true.
Proof.
  unfold mqtt_notify.guarded, finally, try_except.
  destruct body as [t [[code|e]|[]]]; simpl; intros Ht;
    rewrite ?forallb_app, Ht; reflexivity.
Qed.

Lemma signed_main_no_warning (json_dumps : list (string * json) -> string)
  (py_int : string -> option Z) (args : Args) (w : World) :
  signed_notify.signing_key w <> EmptyString ->
  forallb no_warning (trace (signed_notify.main json_dumps py_int args w)) = true.
Proof.
  intros Hkey. apply signing_key_truthy in Hkey.
  unfold signed_notify.main. cbv zeta.
  apply no_warning_bind.
  { unfold signed_notify.sign_payload. rewrite Hkey. reflexivity. }
  intros payload _.
  apply no_warning_bind.
  { unfold signed_notify.choose_topic.
    destruct (Py.truthy_opt (device args)); [reflexivity|].
    destruct (String.eqb (target args) "fleet"); reflexivity. }
  intros topic _.
  do 3 (apply no_warning_bind; [reflexivity|intros ? _]).
  destruct (dry_run args); [reflexivity|].
  apply no_warning_bind; [apply read_connection_no_warning|intros c _].
  apply no_warning_bind.
  { unfold signed_notify.setup_client. destruct (use_tls c); reflexivity. }
  intros ? _.
  apply guarded_no_warning.
  apply no_warning_bind; [apply connect_and_wait_no_warning|intros ? _].
  apply no_warning_bind.
  { unfold signed_notify.publish_and_wait.
    destruct (publish_raises w); reflexivity. }
  intros [] _; [|reflexivity].
  do 4 (apply no_warning_bind; [reflexivity|intros ? _]).
  rewrite Hkey. reflexivity.
Qed.

Lemma str_take_plain (n : nat) (s : string) :
  (forall c, In c (list_ascii_of_string s) -> Py.is_continuation c = false) ->
  String.length (Py.str_take n s) = Nat.min n (String.length s).
Proof.
  revert n. induction s as [|c s IH]; intros n Hs.
  - destruct n; reflexivity.
  - cbn [Py.str_take]. rewrite (Hs c) by (left; reflexivity).
    destruct n as [|n]; [reflexivity|].
    cbn [String.length Nat.min]. rewrite IH; [reflexivity|].
    intros c' Hc'. apply Hs. right. exact Hc'.
Qed.

Lemma lower_hex_not_continuation (c : ascii) :
  Py.is_lower_hex c = true -> Py.is_continuation c = false.
Proof.
  unfold Py.is_lower_hex, Py.is_continuation. cbv zeta.
  destruct (128 <=? Z.of_N (N_of_ascii c)) eqn:H; [|reflexivity].
  apply Z.leb_le in H.
  intros Hx. apply orb_true_iff in Hx.
  destruct Hx as [Hx|Hx]; apply andb_true_iff in Hx; destruct Hx as [_ Hx];
    apply Z.leb_le in Hx; lia.
Qed.

(** X11. With a non-empty signing key the payload has seven keys, the
    signature last; the run starts by printing the first 16 characters of
    the signature (never the whole of it), never prints the unsigned
    warning, and what it publishes is the text of the signed payload. *)
Theorem signed_run_with_key (json_dumps : list (string * json) -> string)
  (py_int : string -> option Z) (args : Args) (w : World) :
  signed_notify.signing_key w <> EmptyString ->
  let signature :=
    signed_notify.compute_hmac_signature (version args) (sha256 args)
      (signed_notify.build_firmware_url (repo args) (version args))
      (signed_notify.signing_key w) in
  dict_keys (signed_notify.payload args w) =
    ["version"; "url"; "sha256"; "force"; "timestamp"; "repo";
     "signature"]%string
  /\ (exists rest,
        trace (signed_notify.main json_dumps py_int args w) =
        Print ("Signature computed: " +:+ Py.str_take 16 signature +:+ "...")
        :: rest)
  /\ String.length (Py.str_take 16 signature) = 16%nat
  /\ ~ In unsigned_warning (trace (signed_notify.main json_dumps py_int args w))
  /\ (forall m,
        In m (publishes (trace (signed_notify.main json_dumps py_int args w))) ->
        snd m =
        json_dumps
          (signed_notify.base_payload args w
           ++ [("signature"%string, JStr signature)])).
Proof.
  intros Hkey signature.
  pose proof (signed_payload_with_key args w Hkey) as Hp. fold signature in Hp.
  split; [rewrite Hp; reflexivity|].
  split.
  { unfold signed_notify.main. cbv zeta. rewrite trace_bind.
    unfold signed_notify.sign_payload at 1.
    apply signing_key_truthy in Hkey. rewrite Hkey.
    rewrite trace_bind. cbn [print emit trace fst app].
    eexists. reflexivity. }
  split.
  { rewrite str_take_plain.
    - unfold signature, signed_notify.compute_hmac_signature. cbv zeta.
      rewrite hmac_hexdigest_length. reflexivity.
    - intros c Hc. apply lower_hex_not_continuation.
      unfold signature, signed_notify.compute_hmac_signature in Hc.
      apply hex_lower in Hc. exact Hc. }
  split.
  { intros Hin.
    pose proof (signed_main_no_warning json_dumps py_int args w Hkey) as Hall.
    rewrite forallb_forall in Hall. specialize (Hall _ Hin). discriminate. }
  intros m Hin. rewrite signed_main_publishes in Hin. apply In_sent in Hin.
  subst m. rewrite Hp. reflexivity.
Qed.

Lemma dry_run_makes_no_client_call_witness :
  dry_run dry_run_args = true
  /\ client_calls
       (trace (signed_notify.main (fun _ => "{}"%string) (fun _ => None)
                 dry_run_args (scenario_world []))) = [].
Proof.
  split; [reflexivity|].
  apply (dry_run_makes_no_client_call (fun _ => "{}"%string) (fun _ => None)
           dry_run_args (scenario_world [])).
  reflexivity.
Defined.

Lemma missing_setting_stops_before_connecting_witness :
  environ (scenario_world []) !! "MQTT_BROKER"%string = None
  /\ result
       (mqtt_notify.main (fun _ => "{}"%string) (fun _ => Some 8883)
          scenario_args (scenario_world [])) = inl (SysExit 1).
Proof.
  split; [reflexivity|].
  apply (missing_setting_stops_before_connecting (fun _ => "{}"%string)
           (fun _ => Some 8883) scenario_args (scenario_world []));
    [reflexivity|left; reflexivity].
Defined.



Lemma signed_run_with_key_witness :
  signed_notify.signing_key
    (scenario_world (("OTA_SIGNING_KEY", "secret") :: broker_vars)%string)
  = "secret"%string
  /\ dict_keys
       (signed_notify.payload scenario_args
          (scenario_world (("OTA_SIGNING_KEY", "secret") :: broker_vars)%string))
     = ["version"; "url"; "sha256"; "force"; "timestamp"; "repo";
        "signature"]%string.
Proof.
  split; [reflexivity|].
  apply (signed_run_with_key (fun _ => "{}"%string) (fun _ => Some 8883)
           scenario_args
           (scenario_world (("OTA_SIGNING_KEY", "secret") :: broker_vars)%string)).
  discriminate.
Defined.

(** The client calls of the scenario, in full. *)
Example scenario_client_calls :
  client_calls
    (trace (signed_notify.main (fun _ => "{}"%string) (fun _ => Some 8883)
              scenario_args (scenario_world broker_vars)))
  = [ClientNew "github-actions-ota-1767225600";
     UsernamePwSet "ci" "pw"; TlsSet;
     ClientConnect "broker.example" 8883 30; LoopStart;
     Publish "ota/fleet/all" "{}" 1 true; WaitForPublish 10;
     LoopStop; Disconnect].
Proof. vm_compute. reflexivity. Qed.


(** * Further properties of the fleet monitor *)

Lemma entry_after_status (t : string) (p old : gmap string json) (now : string) :
  entry_after t p old now !! "status"%string = status_after t p old.
Proof.
  unfold status_after. cbv zeta. rewrite <- (merged_entry_status p old now).
  destruct (Py.contains "status" t) eqn:Hs.
  { unfold entry_after. rewrite Hs. reflexivity. }
  destruct (Py.contains "heartbeat" t) eqn:Hh.
  { apply entry_after_heartbeat_topic; assumption. }
  unfold entry_after. rewrite Hs, Hh. reflexivity.
Qed.

Lemma entry_after_lookup (t : string) (p old : gmap string json)
  (now f : string) :
  entry_after t p old now !! f =
  if String.eqb f "last_seen" then Some (JStr now)
  else if String.eqb f "status" then status_after t p old
  else match p !! f with Some v => Some v | None => old !! f end.
Proof.
  destruct (String.eqb_spec f "last_seen") as [->|Hl].
  { apply entry_after_last_seen. }
  destruct (String.eqb_spec f "status") as [->|Hs].
  { apply entry_after_status. }
  apply entry_after_other; assumption.
Qed.

Lemma status_after_absorbs (t : string) (p old : gmap string json)
  (now : string) :
  status_after t p (entry_after t p old now) = status_after t p old.
Proof.
  unfold status_after at 1. cbv zeta. rewrite entry_after_status.
  unfold status_after. cbv zeta.
  destruct (p !! "status"%string) as [v|]; [reflexivity|].
  destruct (Py.contains "status" t); [reflexivity|].
  destruct (Py.contains "heartbeat" t); [|reflexivity].
  destruct (in_names (old !! "status"%string) in_progress) eqn:Hold.
  - rewrite Hold. reflexivity.
  - match goal with
    | |- (if ?b then _ else _) = _ => destruct b; reflexivity
    end.
Qed.

Lemma entry_after_absorbs (t : string) (p old : gmap string json)
  (now now' : string) :
  entry_after t p (entry_after t p old now) now' = entry_after t p old now'.
Proof.
  apply map_eq. intros f. rewrite !entry_after_lookup.
  destruct (String.eqb f "last_seen") eqn:Hl; [reflexivity|].
  destruct (String.eqb f "status") eqn:Hs; [apply status_after_absorbs|].
  destruct (p !! f); reflexivity.
Qed.

Lemma devices_with_twice (d : OrderedDict) (id : json) (k : pykey)
  (e1 e2 : gmap string json) :
  devices_with (devices_with d id k e1) id k e2 = devices_with d id k e2.
Proof.
  unfold devices_with. simpl.
  rewrite lookup_insert_eq, insert_insert_eq.
  rewrite (bool_decide_eq_true_2 (is_Some (Some e1))) by eauto.
  reflexivity.
Qed.

Lemma od_get_devices_with (d : OrderedDict) (id : json) (k : pykey)
  (e : gmap string json) :
  od_get k (devices_with d id k e) = e.
Proof. unfold od_get, devices_with. simpl. rewrite lookup_insert_eq. reflexivity. Qed.

Lemma field_devices_with_other (d : OrderedDict) (id : json) (k k' : pykey)
  (e : gmap string json) (f : string) :
  k' <> k -> field (devices_with d id k e) k' f = field d k' f.
Proof.
  intros Hne. unfold field, devices_with. simpl.
  rewrite lookup_insert_ne by congruence. reflexivity.
Qed.

Lemma od_get_devices_with_other (d : OrderedDict) (id : json) (k k' : pykey)
  (e : gmap string json) :
  k' <> k -> od_get k' (devices_with d id k e) = od_get k' d.
Proof.
  intros Hne. unfold od_get, devices_with. simpl.
  rewrite lookup_insert_ne by congruence. reflexivity.
Qed.

Lemma in_names_member (s : string) (names : list string) :
  In s names -> in_names (Some (JStr s)) names = true.
Proof.
  intros Hin. unfold in_names. apply existsb_exists.
  exists s. split; [assumption|apply String.eqb_refl].
Qed.

Lemma status_after_kept (t : string) (p old : gmap string json) (s : string) :
  p !! "status"%string = None ->
  old !! "status"%string = Some (JStr s) ->
  In s in_progress ->
  status_after t p old = Some (JStr s).
Proof.
  intros Hp Hold Hin. unfold status_after. cbv zeta. rewrite Hp, Hold.
  rewrite (in_names_member _ _ Hin).
  destruct (Py.contains "status" t); [reflexivity|].
  destruct (Py.contains "heartbeat" t); reflexivity.
Qed.

Lemma status_after_is_Some (t : string) (p old : gmap string json) :
  is_Some (old !! "status"%string) -> is_Some (status_after t p old).
Proof.
  intros Hold. unfold status_after. cbv zeta.
  assert (Hm : is_Some (match p !! "status"%string with
                        | Some v => Some v
                        | None => old !! "status"%string
                        end)).
  { destruct (p !! "status"%string); [eauto|assumption]. }
  destruct (Py.contains "status" t); [assumption|].
  destruct (Py.contains "heartbeat" t); [|assumption].
  destruct (in_names _ in_progress); [assumption|eauto].
Qed.

Lemma entry_after_keeps_fields (t : string) (p old : gmap string json)
  (now f : string) :
  is_Some (old !! f) -> is_Some (entry_after t p old now !! f).
Proof.
  intros Hold. rewrite entry_after_lookup.
  destruct (String.eqb f "last_seen"); [eauto|].
  destruct (String.eqb_spec f "status") as [->|_].
  { apply status_after_is_Some. assumption. }
  destruct (p !! f); [eauto|assumption].
Qed.

Lemma sbind_silent {A B} (m : step A) (k : A -> step B)
  (d d1 : OrderedDict) (a : A) :
  m d = (d1, [], inr a) -> sbind m k d = k a d1.
Proof.
  intros H. unfold sbind. rewrite H.
  destruct (k a d1) as [[? ?] ?]. reflexivity.
Qed.


Section Streams.

Variable loads : list Z -> exn + json.
Variable print_fleet_status : OrderedDict -> list string * option exn.

(** What a message does to the table, whatever the table is: nothing, or
    the merge of its payload into the entry of its device. *)
Lemma on_message_cases (msg : MQTTMessage) :
  (forall devices now,
     devices_after (on_message loads print_fleet_status devices msg now) = devices)
  \/ exists p k,
       loads (payload msg) = inr (JDict p)
       /\ hash_key (device_id_of p) = Some k
       /\ forall devices now,
            devices_after (on_message loads print_fleet_status devices msg now) =
            devices_with devices (device_id_of p) k
              (entry_after (topic msg) p (od_get k devices) now).
Proof.
  assert (Hrej : forall e,
    (forall devices now,
       on_message_body loads print_fleet_status msg now devices =
       (devices, [], inl e)) ->
    forall devices now,
      devices_after (on_message loads print_fleet_status devices msg now) = devices).
  { intros e Hb devices now. rewrite on_message_state, Hb. reflexivity. }
  destruct (loads (payload msg)) as [e|v] eqn:Hl.
  { left. apply (Hrej e). intros devices now.
    apply unparseable_body. exact Hl. }
  destruct v as [| | | | | |p];
    try (left; eapply Hrej; intros devices now;
         unfold on_message_body, sbind, lift; rewrite Hl; reflexivity).
  destruct (hash_key (device_id_of p)) as [k|] eqn:Hk.
  - right. exists p, k. split; [reflexivity|]. split; [assumption|].
    intros devices now. apply on_message_accepts; assumption.
  - left. eapply Hrej. intros devices now.
    unfold on_message_body, sbind, lift. rewrite Hl.
    cbn [get_method]. unfold hashed. fold (device_id_of p). rewrite Hk.
    reflexivity.
Qed.

Lemma loop_forever_invariant (P : OrderedDict -> Prop)
  (inbox : list (MQTTMessage * string)) :
  (forall d msg now,
     In (msg, now) inbox ->
     P d -> P (devices_after (on_message loads print_fleet_status d msg now))) ->
  forall d,
    P d -> P (devices_after (loop_forever loads print_fleet_status d inbox)).
Proof.
  induction inbox as [|[msg now] inbox IH]; intros Hstep d Hd.
  - exact Hd.
  - cbn [loop_forever].
    destruct (escaped (on_message loads print_fleet_status d msg now)).
    + apply Hstep; [left; reflexivity|exact Hd].
    + cbn [devices_after]. apply IH.
      * intros d' msg' now' Hin. apply Hstep. right. exact Hin.
      * apply Hstep; [left; reflexivity|exact Hd].
Qed.

(** X12. Handling the same message a second time changes nothing but
    [last_seen]: the table is the one a single delivery at the later time
    leaves. *)
Theorem redelivery_is_absorbed (devices : OrderedDict) (msg : MQTTMessage)
  (now now' : string) :
  devices_after
    (on_message loads print_fleet_status
       (devices_after (on_message loads print_fleet_status devices msg now))
       msg now') =
  devices_after (on_message loads print_fleet_status devices msg now').
Proof.
  destruct (on_message_cases msg) as [Hd|(p & k & Hl & Hk & Hd)].
  - rewrite !Hd. reflexivity.
  - rewrite !Hd.
    rewrite od_get_devices_with, entry_after_absorbs.
    apply devices_with_twice.
Qed.


(** X13. The monitor never removes anything: after any stream of messages
    the rows that were in the table are still its first rows, in the same
    order, and every field an entry had is still there. *)
Theorem nothing_is_ever_removed (devices : OrderedDict)
  (inbox : list (MQTTMessage * string)) :
  let after :=
    devices_after (loop_forever loads print_fleet_status devices inbox) in
  (exists new, od_keys after = od_keys devices ++ new)
  /\ forall k f, is_Some (field devices k f) -> is_Some (field after k f).
Proof.
  cbv zeta.
  apply (loop_forever_invariant
           (fun d => (exists new, od_keys d = od_keys devices ++ new)
                     /\ forall k f, is_Some (field devices k f) ->
                                    is_Some (field d k f))).
  - intros d msg now _ [[new Hkeys] Hfields].
    destruct (on_message_cases msg) as [Hd|(p & k & _ & _ & Hd)];
      rewrite Hd; [split; eauto|].
    split.
    + unfold devices_with. cbn [od_keys].
      destruct (bool_decide _); [eauto|].
      exists (new ++ [device_id_of p]). rewrite Hkeys, app_assoc. reflexivity.
    + intros k' f Hf. specialize (Hfields k' f Hf).
      destruct (decide (k' = k)) as [->|Hne].
      * rewrite field_devices_with. apply entry_after_keeps_fields.
        rewrite <- field_od_get. assumption.
      * rewrite field_devices_with_other by assumption. assumption.
  - split; [exists []; rewrite app_nil_r; reflexivity|auto].
Qed.

(** X14. Starting from the empty table, after any stream of messages each
    device has one row: the key objects of the rows hash to distinct keys,
    and these are the keys that have an entry. *)
Theorem each_device_is_listed_once (inbox : list (MQTTMessage * string)) :
  rows_consistent
    (devices_after (loop_forever loads print_fleet_status od_empty inbox)).
Proof.
  apply loop_forever_invariant.
  - intros d msg now _ [Hnd Hdom].
    destruct (on_message_cases msg) as [Hd|(p & k & _ & Hk & Hd)];
      rewrite Hd; [split; assumption|].
    unfold rows_consistent, devices_with. cbn [od_keys od_items].
    destruct (od_items d !! k) as [old|] eqn:Hold.
    + rewrite bool_decide_eq_true_2 by eauto.
      split; [assumption|]. intros k'.
      destruct (decide (k' = k)) as [->|Hne].
      * rewrite lookup_insert_eq. rewrite <- Hdom, Hold. split; eauto.
      * rewrite lookup_insert_ne by congruence. apply Hdom.
    + rewrite bool_decide_eq_false_2 by (intros [? ?]; congruence).
      rewrite map_app. cbn [map]. rewrite Hk.
      assert (Hfresh : ~ In (Some k) (map hash_key (od_keys d))).
      { intros Hin. apply Hdom in Hin. destruct Hin as [? ?]. congruence. }
      split.
      * apply NoDup_ListNoDup. apply NoDup_app. split; [|split].
        -- apply NoDup_ListNoDup. assumption.
        -- intros x Hx Hx'. apply list_elem_of_singleton in Hx'. subst x.
           apply Hfresh. apply list_elem_of_In. assumption.
        -- apply NoDup_singleton.
      * intros k'. rewrite in_app_iff.
        destruct (decide (k' = k)) as [->|Hne].
        -- rewrite lookup_insert_eq. split; [intros _|eauto].
           right. left. reflexivity.
        -- rewrite lookup_insert_ne by congruence. rewrite Hdom.
           split; [auto|]. intros [H|[H|[]]]; [assumption|congruence].
  - split; [constructor|]. intros k. cbn. rewrite lookup_empty.
    split; [intros [? ?]; discriminate|intros []].
Qed.

(** X15. A device whose status is [downloading], [self_test_running] or
    [rebooting] keeps that status through any stream of messages, on any
    topics, as long as no payload that parses to an object carries a
    [status] field. *)
Theorem in_progress_status_latches (devices : OrderedDict)
  (inbox : list (MQTTMessage * string)) (k : pykey) (s : string) :
  field devices k "status" = Some (JStr s) ->
  In s in_progress ->
  (forall msg now p,
     In (msg, now) inbox ->
     loads (payload msg) = inr (JDict p) -> p !! "status"%string = None) ->
  field (devices_after (loop_forever loads print_fleet_status devices inbox))
    k "status" = Some (JStr s).
Proof.
  intros Hs Hin Hinbox.
  apply (loop_forever_invariant
           (fun d => field d k "status" = Some (JStr s))); [|exact Hs].
  intros d msg now Hmsg Hd.
  destruct (on_message_cases msg) as [Hrej|(p & k' & Hl & _ & Hacc)].
  { rewrite Hrej. exact Hd. }
  rewrite Hacc.
  destruct (decide (k = k')) as [<-|Hne].
  - rewrite field_devices_with, entry_after_status.
    apply status_after_kept; [|rewrite <- field_od_get; exact Hd|exact Hin].
    exact (Hinbox msg now p Hmsg Hl).
  - rewrite field_devices_with_other by assumption. exact Hd.
Qed.

Lemma on_message_body_renders (devices : OrderedDict) (msg : MQTTMessage)
  (now : string) (p : gmap string json) (k : pykey) :
  loads (payload msg) = inr (JDict p) ->
  hash_key (device_id_of p) = Some k ->
  exists d',
    on_message_body loads print_fleet_status msg now devices =
    render print_fleet_status d'.
Proof.
  intros Hl Hk. unfold on_message_body.
  rewrite (sbind_silent _ _ devices devices (JDict p))
    by (unfold lift; rewrite Hl; reflexivity).
  rewrite (sbind_silent _ _ devices devices p) by reflexivity.
  rewrite (sbind_silent _ _ devices devices k)
    by (unfold lift, hashed; fold (device_id_of p); rewrite Hk; reflexivity).
  erewrite sbind_silent by reflexivity.
  destruct (bool_decide (is_Some (od_items devices !! k)));
    (erewrite sbind_silent by reflexivity);
    (erewrite sbind_silent by reflexivity);
    (erewrite sbind_silent by reflexivity);
    (destruct (Py.contains "status" (topic msg));
     [erewrite sbind_silent by reflexivity; eexists; reflexivity|]);
    (destruct (Py.contains "heartbeat" (topic msg));
     [|erewrite sbind_silent by reflexivity; eexists; reflexivity]);
    (erewrite sbind_silent
       by exact (read_then_modify k
                   (fun entry =>
                      negb (in_names (entry !! "status"%string) in_progress))
                   _ _));
    eexists; reflexivity.
Qed.

(** X16. The dashboard is drawn after the merge and on the merged table: a
    renderer that raises does not undo the merge. Its lines are printed; an
    [Exception] it raises is reported in one more line (none for a
    [JSONDecodeError]) and does not leave the callback; anything else
    escapes. *)
Theorem failed_render_keeps_the_merge (devices : OrderedDict)
  (msg : MQTTMessage) (now : string) (p : gmap string json) (k : pykey) :
  loads (payload msg) = inr (JDict p) ->
  hash_key (device_id_of p) = Some k ->
  let o := on_message loads print_fleet_status devices msg now in
  let merged :=
    devices_with devices (device_id_of p) k
      (entry_after (topic msg) p (od_get k devices) now) in
  devices_after o = merged
  /\ printed o =
     fst (print_fleet_status merged) ++
     match snd (print_fleet_status merged) with
     | Some e =>
         if is_Exception (exn_class e) && negb (is_JSONDecodeError (exn_class e))
         then ["Error processing message: " +:+ exn_message e]
         else []
     | None => []
     end
  /\ escaped o =
     match snd (print_fleet_status merged) with
     | Some e => if is_Exception (exn_class e) then None else Some e
     | None => None
     end.
Proof.
  intros Hl Hk. cbv zeta.
  pose proof (on_message_accepts loads print_fleet_status devices msg now p k
                Hl Hk) as Hstate.
  destruct (on_message_body_renders devices msg now p k Hl Hk) as [d' Hbody].
  assert (Hd' : d' =
    devices_with devices (device_id_of p) k
      (entry_after (topic msg) p (od_get k devices) now)).
  { rewrite <- Hstate, on_message_state, Hbody. symmetry. apply render_state. }
  split; [exact Hstate|].
  unfold on_message. rewrite Hbody, Hd'. unfold render.
  destruct (print_fleet_status _) as [lines [e|]]; cbn [fst snd].
  - destruct (exn_class e); cbn; rewrite ?app_nil_r; split; reflexivity.
  - cbn. rewrite app_nil_r. split; reflexivity.
Qed.


(** X20. Two messages that are filed under different devices can be handled
    in either order: the entries of the table are the same (only the order
    of the rows can differ). *)
Theorem different_devices_commute (devices : OrderedDict)
  (m1 m2 : MQTTMessage) (t1 t2 : string) :
  (forall p1 p2,
     loads (payload m1) = inr (JDict p1) ->
     loads (payload m2) = inr (JDict p2) ->
     hash_key (device_id_of p1) <> hash_key (device_id_of p2)) ->
  od_items
    (devices_after
       (on_message loads print_fleet_status
          (devices_after (on_message loads print_fleet_status devices m1 t1))
          m2 t2)) =
  od_items
    (devices_after
       (on_message loads print_fleet_status
          (devices_after (on_message loads print_fleet_status devices m2 t2))
          m1 t1)).
Proof.
  intros Hdiff.
  destruct (on_message_cases m1) as [H1|(p1 & k1 & Hl1 & Hk1 & H1)];
    destruct (on_message_cases m2) as [H2|(p2 & k2 & Hl2 & Hk2 & H2)];
    rewrite ?H1, ?H2, ?H1, ?H2; try reflexivity.
  assert (Hne : k1 <> k2).
  { intros ->. apply (Hdiff p1 p2 Hl1 Hl2). congruence. }
  rewrite !od_get_devices_with_other by congruence.
  unfold devices_with. cbn [od_items].
  apply insert_insert_ne. congruence.
Qed.

(** X18. Starting from the empty table, every entry has a [last_seen] field
    that holds the arrival time of one of the messages handled. *)
Theorem every_entry_has_an_arrival_time (inbox : list (MQTTMessage * string))
  (k : pykey) (entry : gmap string json) :
  od_items (devices_after (loop_forever loads print_fleet_status od_empty inbox))
    !! k = Some entry ->
  exists msg now,
    In (msg, now) inbox /\ entry !! "last_seen"%string = Some (JStr now).
Proof.
  revert k entry.
  apply (loop_forever_invariant
           (fun d => forall k entry, od_items d !! k = Some entry ->
              exists msg now,
                In (msg, now) inbox
                /\ entry !! "last_seen"%string = Some (JStr now))).
  - intros d msg now Hin Hd k entry.
    destruct (on_message_cases msg) as [Hrej|(p & k' & _ & _ & Hacc)].
    { rewrite Hrej. apply Hd. }
    rewrite Hacc. unfold devices_with. cbn [od_items].
    destruct (decide (k = k')) as [->|Hne].
    + rewrite lookup_insert_eq. intros [= <-].
      exists msg, now. split; [assumption|apply entry_after_last_seen].
    + rewrite lookup_insert_ne by congruence. apply Hd.
  - intros k entry. cbn. rewrite lookup_empty. discriminate.
Qed.

End Streams.

Lemma prefix_append (sub post : string) :
  String.prefix sub (sub +:+ post) = true.
Proof.
  induction sub as [|c sub IH]; [destruct post; reflexivity|].
  change (String c sub +:+ post) with (String c (sub +:+ post)).
  cbn [String.prefix]. rewrite IH.
  destruct (Ascii.ascii_dec c c); [reflexivity|congruence].
Qed.

Lemma contains_infix (sub pre post : string) :
  Py.contains sub (pre +:+ sub +:+ post) = true.
Proof.
  induction pre as [|c pre IH].
  - change (EmptyString +:+ sub +:+ post) with (sub +:+ post).
    destruct (sub +:+ post) eqn:E; cbn [Py.contains];
      rewrite <- E, prefix_append; reflexivity.
  - change (String c pre +:+ sub +:+ post)
      with (String c (pre +:+ sub +:+ post)).
    cbn [Py.contains]. rewrite IH. apply orb_true_r.
Qed.

Lemma levels_nonempty (s : string) : levels s <> [].
Proof.
  destruct s as [|c s]; [discriminate|]. cbn [levels].
  destruct (Ascii.eqb c "/"); [discriminate|].
  destruct (levels s); discriminate.
Qed.

Lemma concat_head (sep : string) (c : ascii) (l : string) (ls : list string) :
  String.concat sep (String c l :: ls) = String c (String.concat sep (l :: ls)).
Proof. destruct ls; reflexivity. Qed.

Lemma levels_concat (s : string) : String.concat "/" (levels s) = s.
Proof.
  induction s as [|c s IH]; [reflexivity|]. cbn [levels].
  pose proof (levels_nonempty s) as Hne.
  destruct (levels s) as [|l ls]; [congruence|].
  destruct (Ascii.eqb_spec c "/"%char) as [->|Hc].
  - change (String.concat "/" (EmptyString :: l :: ls))
      with (String "/" (String.concat "/" (l :: ls))).
    rewrite IH. reflexivity.
  - rewrite concat_head, IH. reflexivity.
Qed.

Lemma append_empty_r (s : string) : s +:+ EmptyString = s.
Proof.
  induction s as [|c s IH]; [reflexivity|].
  change (String c s +:+ EmptyString) with (String c (s +:+ EmptyString)).
  rewrite IH. reflexivity.
Qed.

Lemma delivered_under (a b t : string) :
  a <> "#"%string -> a <> "+"%string -> b <> "#"%string -> b <> "+"%string ->
  topic_matches [a; b; "#"%string] (levels t) = true ->
  exists rest, t = a +:+ "/" +:+ b +:+ rest.
Proof.
  intros Ha Ha' Hb Hb' Hd.
  rewrite <- (levels_concat t).
  cbn [topic_matches] in Hd.
  rewrite (proj2 (String.eqb_neq a "#") Ha) in Hd.
  rewrite (proj2 (String.eqb_neq a "+") Ha') in Hd.
  rewrite (proj2 (String.eqb_neq b "#") Hb) in Hd.
  rewrite (proj2 (String.eqb_neq b "+") Hb') in Hd.
  destruct (levels t) as [|l1 [|l2 ls]]; try discriminate.
  { rewrite andb_false_r in Hd. discriminate. }
  cbn [orb] in Hd. rewrite String.eqb_refl in Hd.
  rewrite andb_true_r in Hd.
  apply andb_prop in Hd. destruct Hd as [H1 H2].
  apply String.eqb_eq in H1. apply String.eqb_eq in H2. subst l1 l2.
  destruct ls as [|l3 ls].
  - exists EmptyString. cbn [String.concat].
    rewrite append_empty_r. reflexivity.
  - exists ("/" +:+ String.concat "/" (l3 :: ls))%string.
    reflexivity.
Qed.

(** X17. [on_connect] subscribes only when the return code is 0, at QoS 1,
    and every topic the broker delivers under one of its two subscriptions
    is taken by a branch of [on_message]: a topic under [ota/status/#]
    contains [status], a topic under [ota/heartbeat/#] contains
    [heartbeat]. *)
Theorem subscribed_topics_are_classified (rc : Z) (filter : string) (qos : Z)
  (t : string) :
  In (Subscribed filter qos) (on_connect rc) ->
  delivered filter t = true ->
  rc = 0 /\ qos = 1
  /\ (filter = "ota/status/#"%string -> Py.contains "status" t = true)
  /\ (filter = "ota/heartbeat/#"%string -> Py.contains "heartbeat" t = true)
  /\ Py.contains "status" t || Py.contains "heartbeat" t = true.
Proof.
  intros Hin Hd. unfold on_connect in Hin.
  destruct (Z.eqb_spec rc 0) as [->|Hrc].
  2:{ destruct Hin as [Hin|[]]. discriminate. }
  assert (Hstatus : delivered "ota/status/#" t = true ->
                    Py.contains "status" t = true).
  { intros H.
    change (topic_matches ["ota"; "status"; "#"]%string (levels t) = true) in H.
    apply delivered_under in H; try discriminate.
    destruct H as [rest ->].
    apply (contains_infix "status" "ota/" rest). }
  assert (Hheart : delivered "ota/heartbeat/#" t = true ->
                   Py.contains "heartbeat" t = true).
  { intros H.
    change (topic_matches ["ota"; "heartbeat"; "#"]%string (levels t) = true)
      in H.
    apply delivered_under in H; try discriminate.
    destruct H as [rest ->].
    apply (contains_infix "heartbeat" "ota/" rest). }
  destruct Hin as [Hin|[Hin|[Hin|[Hin|[Hin|[]]]]]]; try discriminate;
    injection Hin as <- <-; (split; [reflexivity|]); (split; [reflexivity|]).
  - rewrite (Hstatus Hd). split; [reflexivity|]. split; [discriminate|reflexivity].
  - rewrite (Hheart Hd). split; [discriminate|]. split; [reflexivity|].
    apply orb_true_r.
Qed.

Lemma subscribed_topics_are_classified_witness :
  Py.contains "status" "ota/heartbeat/dev-1"
  || Py.contains "heartbeat" "ota/heartbeat/dev-1" = true.
Proof.
  refine (proj2 (proj2 (proj2 (proj2
    (subscribed_topics_are_classified 0 "ota/heartbeat/#" 1
       "ota/heartbeat/dev-1" _ _))))).
  - right. right. left. reflexivity.
  - reflexivity.
Defined.

Lemma in_progress_status_latches_witness :
  let loads := example_loads [downloading_report; plain_heartbeat] in
  let d1 :=
    devices_after
      (on_message loads quiet_status od_empty
         (message "ota/status/dev-1" downloading_report) "t0") in
  let beat := message "ota/heartbeat/dev-1" plain_heartbeat in
  field
    (devices_after
       (loop_forever loads quiet_status d1 [(beat, "t1"); (beat, "t2")]%string))
    (KStr "dev-1") "status" = Some (JStr "downloading").
Proof.
  cbv zeta.
  apply (in_progress_status_latches
           (example_loads [downloading_report; plain_heartbeat]) quiet_status).
  - reflexivity.
  - left. reflexivity.
  - intros msg now p [Hin|[Hin|[]]] Hl; injection Hin as <- <-;
      vm_compute in Hl; injection Hl as <-; reflexivity.
Defined.

Lemma failed_render_keeps_the_merge_witness :
  let o :=
    on_message (example_loads [first_report]) broken_status od_empty
      (message "ota/status/dev-1" first_report) "t0" in
  field (devices_after o) (KStr "dev-1") "ip" = Some (JStr "10.0.0.5")
  /\ printed o =
     ["  ESP8266 OTA Fleet Monitor";
      "Error processing message: unsupported operand type(s) for //: 'str' and 'int'"]%string
  /\ escaped o = None.
Proof.
  cbv zeta.
  pose proof (failed_render_keeps_the_merge (example_loads [first_report])
                broken_status od_empty
                (message "ota/status/dev-1" first_report) "t0"
                (object_fields first_report) (KStr "dev-1")
                eq_refl eq_refl) as H.
  cbv zeta in H. destruct H as (H1 & H2 & H3).
  rewrite H1, H2, H3. repeat split; reflexivity.
Defined.

Lemma different_devices_commute_witness :
  let loads := example_loads [first_report; first_heartbeat] in
  let m1 := message "ota/status/dev-1" first_report in
  let m2 := message "ota/heartbeat/dev-9" first_heartbeat in
  od_items
    (devices_after
       (on_message loads quiet_status
          (devices_after (on_message loads quiet_status od_empty m1 "t0"))
          m2 "t1")) =
  od_items
    (devices_after
       (on_message loads quiet_status
          (devices_after (on_message loads quiet_status od_empty m2 "t1"))
          m1 "t0")).
Proof.
  cbv zeta. apply different_devices_commute.
  intros p1 p2 H1 H2. vm_compute in H1, H2.
  injection H1 as <-. injection H2 as <-. vm_compute. discriminate.
Defined.

Lemma every_entry_has_an_arrival_time_witness :
  exists msg now,
    In (msg, now) [(message "ota/status/dev-1" first_report, "t0"%string)]
    /\ entry_after "ota/status/dev-1" (object_fields first_report) ∅ "t0"
       !! "last_seen"%string = Some (JStr now).
Proof.
  apply (every_entry_has_an_arrival_time (example_loads [first_report])
           quiet_status _ (KStr "dev-1")).
  vm_compute. reflexivity.
Defined.
